(** * Light HAL of xiaomi/onc: arbitration, brightness conversion, rendering

    A shallow embedding of [light/Light.h] and [light/Light.cpp]:
    - the brightness converter ([getBrightness], [scaleBrightness],
      [getScaledBrightness], [isLit]) on 32-bit unsigned integers, carried
      as [Z] with the wrap-around of [uint32_t] written out;
    - the device writer ([readFile], [writeFile], [getMaxBrightness]) as a
      state monad over a model of the sysfs attribute tree;
    - the render handlers ([handleBacklight], [handleNotification]);
    - the controller ([Light::setLight] of Light.cpp, the inline
      [Light::setLight] of Light.h, and [Light::getSupportedTypes]).

    The mutex [globalLock] serialises the calls; the model is sequential and
    runs one call to completion before the next. *)

From Stdlib Require Import ZArith Lia.
From stdpp Require Import base option list strings gmap.

Local Open Scope Z_scope.

(** ** Types of the HAL interface

    [Type], [Flash], [Brightness], [Status] and [LightState] come from
    [android/hardware/light/2.0/ILight.h], which Light.h includes; they are
    the declarations of [android.hardware.light@2.0]. *)

Inductive Type_ : Set :=
| BACKLIGHT | KEYBOARD | BUTTONS | BATTERY
| NOTIFICATIONS | ATTENTION | BLUETOOTH | WIFI | COUNT.

Inductive Flash : Set := NONE | TIMED | HARDWARE.

Inductive Brightness : Set := USER | SENSOR | LOW_PERSISTENCE.

Inductive Status : Set :=
| SUCCESS | LIGHT_NOT_SUPPORTED | BRIGHTNESS_NOT_SUPPORTED | UNKNOWN.

#[global] Instance Type_eq_dec : EqDecision Type_.
Proof. solve_decision. Defined.

#[global] Instance Flash_eq_dec : EqDecision Flash.
Proof. solve_decision. Defined.

#[global] Instance Brightness_eq_dec : EqDecision Brightness.
Proof. solve_decision. Defined.

#[global] Instance Status_eq_dec : EqDecision Status.
Proof. solve_decision. Defined.

(** [color] is a [uint32_t] (ARGB); [flashOnMs] and [flashOffMs] are
    [int32_t]. *)
Record LightState : Set := mkLightState {
  color : Z;
  flashMode : Flash;
  flashOnMs : Z;
  flashOffMs : Z;
  brightnessMode : Brightness
}.

#[global] Instance LightState_eq_dec : EqDecision LightState.
Proof. solve_decision. Defined.

(** ** Machine integers *)

Definition u32_modulus : Z := 2 ^ 32.

(** Conversion to [uint32_t]. *)
Definition to_u32 (x : Z) : Z := x mod u32_modulus.

(** Conversion of a [uint32_t] to [int]. *)
Definition to_int (x : Z) : Z :=
  if decide (to_u32 x < 2 ^ 31) then to_u32 x else to_u32 x - u32_modulus.

(** ** Brightness converter (Light.cpp, lines 73-94 and 120-122) *)

Definition getBrightness (state : LightState) : Z :=
  let alpha := Z.land (Z.shiftr (color state) 24) 255 in
  let red := Z.land (Z.shiftr (color state) 16) 255 in
  let green := Z.land (Z.shiftr (color state) 8) 255 in
  let blue := Z.land (color state) 255 in
  let '(red, green, blue) :=
    if decide (alpha ≠ 255)
    then (to_u32 (red * alpha) / 255,
          to_u32 (green * alpha) / 255,
          to_u32 (blue * alpha) / 255)
    else (red, green, blue) in
  Z.shiftr (to_u32 (77 * red + 150 * green + 29 * blue)) 8.

Definition scaleBrightness (brightness maxBrightness : Z) : Z :=
  to_u32 (brightness * maxBrightness) / 255.

Definition getScaledBrightness (state : LightState) (maxBrightness : Z) : Z :=
  scaleBrightness (getBrightness state) maxBrightness.

Definition isLit (state : LightState) : bool :=
  bool_decide (Z.land (color state) 16777215 ≠ 0).

(** ** State monad

    [ST W A] is a computation that reads and updates a store of type [W] and
    returns an [A]. The device writer and the handlers run in [ST Sysfs]; the
    controller is generic in the store its handlers act on. *)

Definition ST (W A : Type) : Type := W → A * W.

#[global] Instance ST_ret {W} : MRet (ST W) := λ A (a : A) w, (a, w).

#[global] Instance ST_bind {W} : MBind (ST W) :=
  λ A B (k : A → ST W B) (c : ST W A) w, let '(a, w') := c w in k a w'.

(** ** Device writer (Light.cpp, lines 29-71)

    The sysfs tree is a finite map from the paths that can be opened to the
    integer each attribute holds; sysfs creates no file on open, so a path
    outside the map opens neither for reading nor for writing. [issued]
    records every [writeFile] call, oldest first, whether or not the attribute
    could be opened. *)

Record Sysfs : Type := mkSysfs {
  attrs : gmap string Z;
  issued : list (string * Z)
}.

Definition LEDS : string := "/sys/class/leds/".
Definition LCD_LED : string := LEDS +:+ "lcd-backlight/".
Definition WHITE_LED : string := LEDS +:+ "red/".
Definition BREATH : string := "breath".
Definition BRIGHTNESS : string := "brightness".
Definition DELAY_OFF : string := "delay_off".
Definition DELAY_ON : string := "delay_on".
Definition MAX_BRIGHTNESS : string := "max_brightness".

(** [writeFile(path, int)]: the value is written when the file opens, and the
    call reports whether it did. *)
Definition writeFile (path : string) (value : Z) : ST Sysfs bool :=
  λ fs,
    let log := issued fs ++ [(path, value)] in
    match attrs fs !! path with
    | Some _ => (true, {| attrs := <[path := value]> (attrs fs); issued := log |})
    | None => (false, {| attrs := attrs fs; issued := log |})
    end.

(** [readFile(path)]: [None] is [std::nullopt], the file did not open. *)
Definition readFile (path : string) : ST Sysfs (option Z) :=
  λ fs, (attrs fs !! path, fs).

Definition getMaxBrightness (path : string) : ST Sysfs (option Z) :=
  value ← readFile path;
  mret value.

(** ** Render handlers (Light.cpp, lines 96-118; Light.h, lines 89-113 repeat
    the two bodies) *)

Definition handleBacklight (state : LightState) : ST Sysfs () :=
  maxBrightnessOpt ← getMaxBrightness (LCD_LED +:+ MAX_BRIGHTNESS);
  match maxBrightnessOpt with
  | Some maxBrightness =>
      let brightness := getScaledBrightness state (to_u32 maxBrightness) in
      _ ← writeFile (LCD_LED +:+ BRIGHTNESS) (to_int brightness);
      mret ()
  | None => mret ()
  end.

Definition handleNotification (state : LightState) : ST Sysfs () :=
  maxBrightnessOpt ← getMaxBrightness (WHITE_LED +:+ MAX_BRIGHTNESS);
  match maxBrightnessOpt with
  | Some maxBrightness =>
      let whiteBrightness := getScaledBrightness state (to_u32 maxBrightness) in
      _ ← writeFile (WHITE_LED +:+ BREATH) 0;
      if decide (flashMode state = TIMED) then
        _ ← writeFile (WHITE_LED +:+ DELAY_OFF) (flashOffMs state);
        _ ← writeFile (WHITE_LED +:+ DELAY_ON) (flashOnMs state);
        _ ← writeFile (WHITE_LED +:+ BREATH) 1;
        mret ()
      else
        _ ← writeFile (WHITE_LED +:+ BRIGHTNESS) (to_int whiteBrightness);
        mret ()
  | None => mret ()
  end.

(** ** Backends (Light.h, lines 43-52 and 82-87)

    A [LightStateHandler] is a pointer to one of the two render handlers; the
    null pointer is [None] at type [option LightStateHandler]. *)

Inductive LightStateHandler : Set := HandleNotification | HandleBacklight.

#[global] Instance LightStateHandler_eq_dec : EqDecision LightStateHandler.
Proof. solve_decision. Defined.

Module LightBackend.
Record t : Set := mk {
  type : Type_;
  state : LightState;
  handler : LightStateHandler
}.

(** The constructor's [state{0xff000000}]: opaque black, the other fields
    zero. *)
Definition initial_state : LightState :=
  mkLightState 4278190080 NONE 0 0 USER.

Definition make (type : Type_) (handler : LightStateHandler) : t :=
  mk type initial_state handler.
End LightBackend.

#[global] Instance LightBackend_eq_dec : EqDecision LightBackend.t.
Proof. solve_decision. Defined.

(** The member [Light::backends]: one backend per supported type, in this
    order; each starts with the state its constructor sets. *)
Definition backends : list LightBackend.t :=
  [ LightBackend.make ATTENTION HandleNotification;
    LightBackend.make NOTIFICATIONS HandleNotification;
    LightBackend.make BATTERY HandleNotification;
    LightBackend.make BACKLIGHT HandleBacklight ].

(** Calling through a handler pointer on the real device. *)
Definition invoke (handler : LightStateHandler) : LightState → ST Sysfs () :=
  match handler with
  | HandleNotification => handleNotification
  | HandleBacklight => handleBacklight
  end.

(** ** Controller *)

Section Controller.
Context {W : Type}.

(** What a call through a handler pointer does to the store. *)
Variable call : LightStateHandler → LightState → ST W ().

(** Light.cpp, lines 140-145: update the cached state of every backend of
    the given type, remembering the handler of the last one. *)
Fixpoint updateCachedState (type : Type_) (state : LightState)
    (handler : option LightStateHandler) (bs : list LightBackend.t)
    : list LightBackend.t * option LightStateHandler :=
  match bs with
  | [] => ([], handler)
  | backend :: rest =>
      if decide (LightBackend.type backend = type) then
        let backend' :=
          LightBackend.mk (LightBackend.type backend) state
                          (LightBackend.handler backend) in
        let '(rest', handler') :=
          updateCachedState type state
                            (Some (LightBackend.handler backend)) rest in
        (backend' :: rest', handler')
      else
        let '(rest', handler') := updateCachedState type state handler rest in
        (backend :: rest', handler')
  end.

(** Light.cpp, lines 153-159: render the first lit backend that shares the
    handler; the result is [handled]. *)
Fixpoint lightUp (handler : LightStateHandler) (bs : list LightBackend.t)
    : ST W bool :=
  match bs with
  | [] => mret false
  | backend :: rest =>
      if bool_decide (handler = LightBackend.handler backend)
         && isLit (LightBackend.state backend)
      then _ ← call handler (LightBackend.state backend); mret true
      else lightUp handler rest
  end.

(** [Light::setLight] of Light.cpp, lines 132-167. The object's backends
    are passed in and handed back. *)
Definition setLight (type : Type_) (state : LightState)
    (bs : list LightBackend.t) : ST W (Status * list LightBackend.t) :=
  let '(bs, handler) := updateCachedState type state None bs in
  match handler with
  | None => mret (LIGHT_NOT_SUPPORTED, bs)
  | Some handler =>
      handled ← lightUp handler bs;
      _ ← (if negb handled then call handler state else mret ());
      mret (SUCCESS, bs)
  end.

(** The inline [Light::setLight] of Light.h, lines 56-69. *)
Fixpoint setLight_inline (type : Type_) (state : LightState)
    (bs : list LightBackend.t) : ST W (Status * list LightBackend.t) :=
  match bs with
  | [] => mret (LIGHT_NOT_SUPPORTED, [])
  | backend :: rest =>
      if decide (LightBackend.type backend = type) then
        let backend' :=
          LightBackend.mk (LightBackend.type backend) state
                          (LightBackend.handler backend) in
        _ ← call (LightBackend.handler backend) state;
        mret (SUCCESS, backend' :: rest)
      else
        '(status, rest') ← setLight_inline type state rest;
        mret (status, backend :: rest')
  end.

(** [Light::getSupportedTypes] (Light.cpp, lines 169-184): the vector built
    by [push_back] is what the callback receives. *)
Definition getSupportedTypes (bs : list LightBackend.t)
    : ST W (list Type_ * list LightBackend.t) :=
  let types :=
    foldl (λ types backend, types ++ [LightBackend.type backend]) [] bs in
  mret (types, bs).

End Controller.

(** ** Reference definitions of the brightness conversion

    These two follow the specification's wording, on unbounded integers; the
    theorems below compare them with [getBrightness] and [scaleBrightness]. *)

Definition luma_reference (argb : Z) : Z :=
  let alpha := (argb / 2 ^ 24) mod 256 in
  let red := (argb / 2 ^ 16) mod 256 in
  let green := (argb / 2 ^ 8) mod 256 in
  let blue := argb mod 256 in
  let premultiply channel :=
    if decide (alpha ≠ 255) then channel * alpha / 255 else channel in
  (77 * premultiply red + 150 * premultiply green + 29 * premultiply blue)
  / 2 ^ 8.

Definition scale_reference (luma maxBrightness : Z) : Z :=
  luma * maxBrightness / 255.

(** ** Descriptions used to state what the controller does *)

(** The backends after the cache update: every backend of the given type
    holds [state], the others are untouched. *)
Definition cache (type : Type_) (state : LightState)
    (bs : list LightBackend.t) : list LightBackend.t :=
  map (λ b, if decide (LightBackend.type b = type)
            then LightBackend.mk (LightBackend.type b) state
                                 (LightBackend.handler b)
            else b) bs.

(** The handler the first loop ends with, starting from [h0]. *)
Definition lookupHandler (type : Type_) (h0 : option LightStateHandler)
    (bs : list LightBackend.t) : option LightStateHandler :=
  foldl (λ h b, if decide (LightBackend.type b = type)
                then Some (LightBackend.handler b) else h) h0 bs.

(** The first backend, in construction order, that shares the handler and is
    lit. *)
Definition winner (handler : LightStateHandler) (bs : list LightBackend.t)
    : option LightBackend.t :=
  find (λ b, bool_decide (handler = LightBackend.handler b)
             && isLit (LightBackend.state b)) bs.

(** The types and handlers of a backend list, without the cached states. *)
Definition layout (bs : list LightBackend.t)
    : list (Type_ * LightStateHandler) :=
  map (λ b, (LightBackend.type b, LightBackend.handler b)) bs.

(** A backend list the controller can hold: the four backends of Light.h,
    with any cached states. *)
Definition configured (bs : list LightBackend.t) : Prop :=
  layout bs = layout backends.

(** The log of handler invocations: a store that only records the calls made
    through handler pointers. *)
Definition record (handler : LightStateHandler) (state : LightState)
    : ST (list (LightStateHandler * LightState)) () :=
  λ log, ((), log ++ [(handler, state)]).

(** A history of [setLight] calls, run in order by one of the two
    implementations. *)
Fixpoint runCalls {W : Type}
    (impl : Type_ → LightState → list LightBackend.t
            → ST W (Status * list LightBackend.t))
    (calls : list (Type_ * LightState)) (bs : list LightBackend.t)
    : ST W (list LightBackend.t) :=
  match calls with
  | [] => mret bs
  | (type, state) :: calls' =>
      '(_, bs') ← impl type state bs;
      runCalls impl calls' bs'
  end.

(** The state of the most recent call for [type] in a history. *)
Fixpoint lastState (type : Type_) (calls : list (Type_ * LightState))
    : option LightState :=
  match calls with
  | [] => None
  | (type', state) :: calls' =>
      match lastState type calls' with
      | Some s => Some s
      | None => if decide (type' = type) then Some state else None
      end
  end.

(** The sysfs attribute a handler reads before it writes anything. *)
Definition maxBrightnessPath (handler : LightStateHandler) : string :=
  match handler with
  | HandleNotification => WHITE_LED +:+ MAX_BRIGHTNESS
  | HandleBacklight => LCD_LED +:+ MAX_BRIGHTNESS
  end.

(** ** States and devices used in examples *)

Definition opaque_green : LightState := mkLightState 4278255360 NONE 0 0 USER.
Definition opaque_white : LightState := mkLightState 4294967295 NONE 0 0 USER.
Definition half_green : LightState := mkLightState 2147548928 NONE 0 0 USER.
Definition black_timed : LightState :=
  mkLightState 4278190080 TIMED 500 500 USER.

(** A device on which every attribute of both LEDs can be opened, with
    [max_brightness] 255 and everything else 0. *)
Definition sample_device : Sysfs :=
  mkSysfs
    (list_to_map
       [ (LCD_LED +:+ MAX_BRIGHTNESS, 255); (LCD_LED +:+ BRIGHTNESS, 0);
         (WHITE_LED +:+ MAX_BRIGHTNESS, 255); (WHITE_LED +:+ BRIGHTNESS, 0);
         (WHITE_LED +:+ BREATH, 0); (WHITE_LED +:+ DELAY_ON, 0);
         (WHITE_LED +:+ DELAY_OFF, 0) ])
    [].

(** A device without any LED attribute. *)
Definition bare_device : Sysfs := mkSysfs ∅ [].

(** ** Descriptions used for the device and for histories *)

(** The attributes a handler passes to [writeFile]. *)
Definition writablePaths (handler : LightStateHandler) : list string :=
  match handler with
  | HandleNotification =>
      [ WHITE_LED +:+ BREATH; WHITE_LED +:+ DELAY_OFF;
        WHITE_LED +:+ DELAY_ON; WHITE_LED +:+ BRIGHTNESS ]
  | HandleBacklight => [ LCD_LED +:+ BRIGHTNESS ]
  end.

(** The state a history leaves cached for a type, starting from the initial
    backends. *)
Definition cachedAfter (calls : list (Type_ * LightState)) (type : Type_)
    : LightState :=
  default LightBackend.initial_state (lastState type calls).

(** Among ATTENTION, NOTIFICATIONS and BATTERY, in this order, the first
    cached state that is lit after a history; [fallback] when none is. *)
Definition shownAfter (calls : list (Type_ * LightState))
    (fallback : LightState) : LightState :=
  if isLit (cachedAfter calls ATTENTION) then cachedAfter calls ATTENTION
  else if isLit (cachedAfter calls NOTIFICATIONS)
       then cachedAfter calls NOTIFICATIONS
  else if isLit (cachedAfter calls BATTERY) then cachedAfter calls BATTERY
  else fallback.

(** ** Arithmetic of the converter *)

Section Arithmetic.

Lemma to_u32_small x : 0 <= x < 2 ^ 32 → to_u32 x = x.
Proof. intros Hx. unfold to_u32, u32_modulus. apply Z.mod_small, Hx. Qed.

Lemma to_u32_range x : 0 <= to_u32 x < 2 ^ 32.
Proof. unfold to_u32, u32_modulus. apply Z.mod_pos_bound. lia. Qed.

Lemma byte_mask x : Z.land x 255 = x mod 256.
Proof. change 255 with (Z.ones 8). rewrite Z.land_ones by lia. reflexivity. Qed.

Lemma channel_range x n : 0 <= Z.land (Z.shiftr x n) 255 <= 255.
Proof.
  rewrite byte_mask.
  pose proof (Z.mod_pos_bound (Z.shiftr x n) 256). lia.
Qed.

Lemma premultiplied_range c a :
  0 <= c <= 255 → 0 <= a <= 255 → 0 <= c * a / 255 <= 255.
Proof.
  intros Hc Ha. split.
  - apply Z.div_pos; nia.
  - apply Z.div_le_upper_bound; nia.
Qed.

Lemma premultiplied_no_wrap c a :
  0 <= c <= 255 → 0 <= a <= 255 → to_u32 (c * a) = c * a.
Proof. intros Hc Ha. apply to_u32_small. nia. Qed.

(** The converter never wraps: it is the reference luma on every colour. *)
Lemma getBrightness_reference state :
  getBrightness state = luma_reference (color state).
Proof.
  unfold getBrightness, luma_reference.
  set (c := color state).
  pose proof (channel_range c 24) as Ha.
  pose proof (channel_range c 16) as Hr.
  pose proof (channel_range c 8) as Hg.
  pose proof (channel_range (Z.shiftl c 0) 0) as Hb.
  rewrite Z.shiftr_0_r, Z.shiftl_0_r in Hb.
  rewrite !byte_mask in *. rewrite !Z.shiftr_div_pow2 in * by lia.
  set (alpha := (c / 2 ^ 24) mod 256) in *.
  set (red := (c / 2 ^ 16) mod 256) in *.
  set (green := (c / 2 ^ 8) mod 256) in *.
  set (blue := c mod 256) in *.
  destruct (decide (alpha ≠ 255)) as [Hne | Heq].
  - rewrite !premultiplied_no_wrap by lia.
    pose proof (premultiplied_range red alpha Hr Ha).
    pose proof (premultiplied_range green alpha Hg Ha).
    pose proof (premultiplied_range blue alpha Hb Ha).
    rewrite to_u32_small by lia.
    rewrite ?Z.shiftr_div_pow2 by lia. reflexivity.
  - rewrite to_u32_small by lia.
    rewrite ?Z.shiftr_div_pow2 by lia. reflexivity.
Qed.

Lemma luma_reference_range argb : 0 <= luma_reference argb <= 255.
Proof.
  unfold luma_reference.
  pose proof (Z.mod_pos_bound (argb / 2 ^ 24) 256) as Ha.
  pose proof (Z.mod_pos_bound (argb / 2 ^ 16) 256) as Hr.
  pose proof (Z.mod_pos_bound (argb / 2 ^ 8) 256) as Hg.
  pose proof (Z.mod_pos_bound argb 256) as Hb.
  set (alpha := (argb / 2 ^ 24) mod 256) in *.
  set (red := (argb / 2 ^ 16) mod 256) in *.
  set (green := (argb / 2 ^ 8) mod 256) in *.
  set (blue := argb mod 256) in *.
  assert (Hp : ∀ ch, 0 <= ch <= 255 →
    0 <= (if decide (alpha ≠ 255) then ch * alpha / 255 else ch) <= 255).
  { intros ch Hch. destruct (decide (alpha ≠ 255)); [|lia].
    apply premultiplied_range; lia. }
  pose proof (Hp red ltac:(lia)). pose proof (Hp green ltac:(lia)).
  pose proof (Hp blue ltac:(lia)).
  split.
  - apply Z.div_pos; lia.
  - apply Z.div_le_upper_bound; lia.
Qed.

Lemma getBrightness_range state : 0 <= getBrightness state <= 255.
Proof. rewrite getBrightness_reference. apply luma_reference_range. Qed.

(** [scaleBrightness] is the reference scaling as long as the product fits
    in 32 bits. *)
Lemma scaleBrightness_no_wrap brightness maxBrightness :
  0 <= brightness * maxBrightness < 2 ^ 32 →
  scaleBrightness brightness maxBrightness
  = scale_reference brightness maxBrightness.
Proof.
  intros H. unfold scaleBrightness, scale_reference.
  rewrite to_u32_small by lia. reflexivity.
Qed.

Lemma scale_reference_le luma maxBrightness :
  0 <= luma <= 255 → 0 <= maxBrightness →
  0 <= scale_reference luma maxBrightness <= maxBrightness.
Proof.
  intros Hl Hm. unfold scale_reference. split.
  - apply Z.div_pos; nia.
  - apply Z.div_le_upper_bound; nia.
Qed.

Lemma scaleBrightness_le brightness maxBrightness :
  0 <= brightness <= 255 → 0 <= maxBrightness →
  0 <= scaleBrightness brightness maxBrightness <= maxBrightness.
Proof.
  intros Hb Hm.
  destruct (decide (brightness * maxBrightness < 2 ^ 32)) as [Hfit | Hwrap].
  - rewrite scaleBrightness_no_wrap by nia.
    apply scale_reference_le; lia.
  - unfold scaleBrightness.
    pose proof (to_u32_range (brightness * maxBrightness)) as Hr.
    split.
    + apply Z.div_pos; lia.
    + apply Z.div_le_upper_bound; [lia|]. nia.
Qed.

(** A state that is not lit has red, green and blue all zero, hence luma
    zero. *)
Lemma not_lit_luma state : isLit state = false → getBrightness state = 0.
Proof.
  unfold isLit. intros H. apply bool_decide_eq_false in H.
  assert (Hrgb : color state mod 2 ^ 24 = 0).
  { destruct (decide (Z.land (color state) 16777215 = 0)) as [E|E]; [|tauto].
    change 16777215 with (Z.ones 24) in E.
    rewrite Z.land_ones in E by lia. exact E. }
  assert (∃ q, color state = 2 ^ 24 * q) as [q E].
  { exists (color state / 2 ^ 24).
    pose proof (Z.div_mod (color state) (2 ^ 24) ltac:(lia)). lia. }
  rewrite getBrightness_reference. unfold luma_reference. rewrite E.
  assert (Hb : (2 ^ 24 * q) mod 256 = 0).
  { replace (2 ^ 24 * q) with (2 ^ 16 * q * 256) by lia.
    apply Z.mod_mul. lia. }
  assert (Hg : (2 ^ 24 * q / 2 ^ 8) mod 256 = 0).
  { replace (2 ^ 24 * q) with (2 ^ 16 * q * 2 ^ 8) by lia.
    rewrite Z.div_mul by lia.
    replace (2 ^ 16 * q) with (2 ^ 8 * q * 256) by lia.
    apply Z.mod_mul. lia. }
  assert (Hr : (2 ^ 24 * q / 2 ^ 16) mod 256 = 0).
  { replace (2 ^ 24 * q) with (2 ^ 8 * q * 2 ^ 16) by lia.
    rewrite Z.div_mul by lia.
    replace (2 ^ 8 * q) with (q * 256) by lia.
    apply Z.mod_mul. lia. }
  rewrite Hb, Hg, Hr.
  destruct (decide ((2 ^ 24 * q / 2 ^ 24) mod 256 ≠ 255)); reflexivity.
Qed.

End Arithmetic.

(** ** The two loops of [setLight] *)

Section Loops.
Context {W : Type} (call : LightStateHandler → LightState → ST W ()).

Lemma updateCachedState_spec type state h0 bs :
  updateCachedState type state h0 bs
  = (cache type state bs, lookupHandler type h0 bs).
Proof.
  revert h0. induction bs as [|b bs IH]; intros h0; simpl; [reflexivity|].
  destruct (decide (LightBackend.type b = type)); rewrite IH; reflexivity.
Qed.

Lemma lightUp_spec handler bs w :
  lightUp call handler bs w
  = match winner handler bs with
    | Some b => (true, (call handler (LightBackend.state b) w).2)
    | None => (false, w)
    end.
Proof.
  unfold winner. induction bs as [|b bs IH]; simpl; [reflexivity|].
  destruct (bool_decide (handler = LightBackend.handler b)
            && isLit (LightBackend.state b)); [|exact IH].
  unfold mbind, ST_bind, mret, ST_ret.
  destruct (call handler (LightBackend.state b) w); reflexivity.
Qed.

(** [setLight] in one equation: the status, the backends and the store. *)
Lemma setLight_spec type state bs w :
  setLight call type state bs w
  = match lookupHandler type None bs with
    | None => (LIGHT_NOT_SUPPORTED, cache type state bs, w)
    | Some handler =>
        let rendered :=
          match winner handler (cache type state bs) with
          | Some b => LightBackend.state b
          | None => state
          end in
        (SUCCESS, cache type state bs, (call handler rendered w).2)
    end.
Proof.
  unfold setLight. rewrite updateCachedState_spec.
  destruct (lookupHandler type None bs) as [handler|]; [|reflexivity].
  unfold mbind, ST_bind, mret, ST_ret. rewrite lightUp_spec.
  destruct (winner handler (cache type state bs)) as [b|]; simpl.
  - reflexivity.
  - destruct (call handler state w); reflexivity.
Qed.

(** The inline variant keeps the types and handlers of the backends. *)
Lemma setLight_inline_layout type state bs w :
  layout (setLight_inline call type state bs w).1.2 = layout bs.
Proof.
  revert w. induction bs as [|b bs IH]; intros w; simpl; [reflexivity|].
  unfold mbind, ST_bind, mret, ST_ret.
  destruct (decide (LightBackend.type b = type)).
  - destruct (call (LightBackend.handler b) state w). reflexivity.
  - specialize (IH w).
    destruct (setLight_inline call type state bs w) as [[status bs'] w'].
    simpl in *. f_equal. exact IH.
Qed.

End Loops.

(** ** Facts about the cache update and the handler lookup *)

Section Backends.

Lemma cache_layout type state bs : layout (cache type state bs) = layout bs.
Proof.
  unfold layout, cache. rewrite map_map. apply map_ext. intros b.
  destruct (decide (LightBackend.type b = type)); reflexivity.
Qed.

Lemma cache_length type state bs : length (cache type state bs) = length bs.
Proof. unfold cache. apply length_map. Qed.

Lemma cache_absent type state bs :
  type ∉ map LightBackend.type bs → cache type state bs = bs.
Proof.
  induction bs as [|b bs IH]; simpl; intros Hnot; [reflexivity|].
  apply not_elem_of_cons in Hnot as [Hne Hrest].
  destruct (decide (LightBackend.type b = type)); [congruence|].
  f_equal. apply IH, Hrest.
Qed.

Lemma lookupHandler_absent type h0 bs :
  type ∉ map LightBackend.type bs → lookupHandler type h0 bs = h0.
Proof.
  unfold lookupHandler. revert h0.
  induction bs as [|b bs IH]; simpl; intros h0 Hnot; [reflexivity|].
  apply not_elem_of_cons in Hnot as [Hne Hrest].
  destruct (decide (LightBackend.type b = type)); [congruence|].
  apply IH, Hrest.
Qed.

Lemma lookupHandler_seeded type h bs :
  is_Some (lookupHandler type (Some h) bs).
Proof.
  unfold lookupHandler. revert h.
  induction bs as [|b bs IH]; simpl; intros h; [eauto|].
  destruct (decide (LightBackend.type b = type)); apply IH.
Qed.

Lemma lookupHandler_present type h0 bs :
  type ∈ map LightBackend.type bs → is_Some (lookupHandler type h0 bs).
Proof.
  revert h0. induction bs as [|b bs IH]; simpl; intros h0 Hin.
  - apply elem_of_nil in Hin. contradiction.
  - unfold lookupHandler. simpl.
    destruct (decide (LightBackend.type b = type)) as [E|E].
    + apply lookupHandler_seeded.
    + apply elem_of_cons in Hin as [Hin|Hin]; [congruence|].
      apply IH, Hin.
Qed.

(** With one backend per type, the lookup finds that backend's handler. *)
Lemma lookupHandler_unique b h0 bs :
  NoDup (map LightBackend.type bs) → b ∈ bs →
  lookupHandler (LightBackend.type b) h0 bs = Some (LightBackend.handler b).
Proof.
  revert h0. induction bs as [|b' bs IH]; simpl; intros h0 Hnd Hin.
  - apply elem_of_nil in Hin. contradiction.
  - apply NoDup_cons in Hnd as [Hfresh Hnd]. unfold lookupHandler. simpl.
    apply elem_of_cons in Hin as [->|Hin].
    + destruct (decide (LightBackend.type b' = LightBackend.type b'));
        [|congruence].
      apply lookupHandler_absent, Hfresh.
    + destruct (decide (LightBackend.type b' = LightBackend.type b))
        as [E|E].
      * exfalso. apply Hfresh. rewrite E.
        apply list_elem_of_fmap. exists b. split; [reflexivity|exact Hin].
      * apply IH; assumption.
Qed.

Lemma lookupHandler_layout type h0 bs bs' :
  layout bs = layout bs' →
  lookupHandler type h0 bs = lookupHandler type h0 bs'.
Proof.
  unfold lookupHandler. revert h0 bs'.
  induction bs as [|b bs IH]; intros h0 [|b' bs'] E; simpl in *;
    try discriminate; [reflexivity|].
  injection E as Et Eh El. rewrite Et, Eh. apply IH, El.
Qed.

Lemma layout_types bs : map LightBackend.type bs = map fst (layout bs).
Proof. unfold layout. rewrite map_map. reflexivity. Qed.

Lemma configured_types bs :
  configured bs →
  map LightBackend.type bs = [ATTENTION; NOTIFICATIONS; BATTERY; BACKLIGHT].
Proof. intros E. rewrite layout_types, E. reflexivity. Qed.

Lemma configured_NoDup bs :
  configured bs → NoDup (map LightBackend.type bs).
Proof.
  intros E. rewrite (configured_types bs E).
  repeat (apply NoDup_cons; split; [|]); try apply NoDup_nil_2;
    rewrite ?elem_of_cons, ?elem_of_nil; intuition discriminate.
Qed.

Lemma configured_backends : configured backends.
Proof. reflexivity. Qed.

(** The handler each configured type is bound to. *)
Lemma configured_lookup type bs :
  configured bs →
  lookupHandler type None bs
  = match type with
    | ATTENTION | NOTIFICATIONS | BATTERY => Some HandleNotification
    | BACKLIGHT => Some HandleBacklight
    | _ => None
    end.
Proof.
  intros E. rewrite (lookupHandler_layout type None bs backends E).
  destruct type; reflexivity.
Qed.

(** [winner] is the first backend, in list order, that shares the handler
    and is lit. *)
Lemma winner_first handler bs first :
  winner handler bs = Some first →
  ∃ before after,
    bs = before ++ first :: after
    ∧ handler = LightBackend.handler first
    ∧ isLit (LightBackend.state first) = true
    ∧ ∀ b, b ∈ before →
           ¬ (handler = LightBackend.handler b
              ∧ isLit (LightBackend.state b) = true).
Proof.
  unfold winner. induction bs as [|b bs IH]; simpl; [discriminate|].
  destruct (bool_decide (handler = LightBackend.handler b)
            && isLit (LightBackend.state b)) eqn:Hb.
  - intros [= ->]. apply andb_true_iff in Hb as [Hh Hl].
    apply bool_decide_eq_true in Hh.
    exists [], bs. repeat split; try assumption.
    intros b Hin. apply elem_of_nil in Hin. contradiction.
  - intros Hfind.
    destruct (IH Hfind) as (before & after & -> & Hh & Hl & Hbefore).
    exists (b :: before), after. repeat split; try assumption.
    intros b' Hin [Hh' Hl']. apply elem_of_cons in Hin as [->|Hin].
    + rewrite Hl', andb_true_r in Hb.
      apply bool_decide_eq_false in Hb. contradiction.
    + apply (Hbefore b' Hin). split; assumption.
Qed.

End Backends.

(** ** Facts about the render handlers *)

Section Handlers.

Lemma handleNotification_unreadable state fs :
  attrs fs !! (WHITE_LED +:+ MAX_BRIGHTNESS) = None →
  handleNotification state fs = ((), fs).
Proof.
  intros H. unfold handleNotification, getMaxBrightness, readFile.
  unfold mbind, ST_bind, mret, ST_ret. rewrite H. reflexivity.
Qed.

Lemma handleBacklight_unreadable state fs :
  attrs fs !! (LCD_LED +:+ MAX_BRIGHTNESS) = None →
  handleBacklight state fs = ((), fs).
Proof.
  intros H. unfold handleBacklight, getMaxBrightness, readFile.
  unfold mbind, ST_bind, mret, ST_ret. rewrite H. reflexivity.
Qed.

Lemma invoke_unreadable handler state fs :
  attrs fs !! maxBrightnessPath handler = None →
  invoke handler state fs = ((), fs).
Proof.
  destruct handler; simpl.
  - apply handleNotification_unreadable.
  - apply handleBacklight_unreadable.
Qed.

Lemma writeFile_issued path value fs :
  issued (writeFile path value fs).2 = issued fs ++ [(path, value)].
Proof. unfold writeFile. destruct (attrs fs !! path); reflexivity. Qed.

Lemma ST_bind_run {W A B} (c : ST W A) (k : A → ST W B) w :
  (c ≫= k) w = k (c w).1 (c w).2.
Proof. unfold mbind, ST_bind. destruct (c w); reflexivity. Qed.

Lemma ST_ret_run {W A} (a : A) (w : W) : (mret a : ST W A) w = (a, w).
Proof. reflexivity. Qed.

Ltac run_handler :=
  rewrite ?ST_bind_run, ?ST_ret_run; simpl;
  rewrite ?writeFile_issued, <- ?app_assoc; simpl.

Lemma handleNotification_timed state fs maxBrightness :
  attrs fs !! (WHITE_LED +:+ MAX_BRIGHTNESS) = Some maxBrightness →
  flashMode state = TIMED →
  issued (handleNotification state fs).2
  = issued fs ++ [ (WHITE_LED +:+ BREATH, 0);
                   (WHITE_LED +:+ DELAY_OFF, flashOffMs state);
                   (WHITE_LED +:+ DELAY_ON, flashOnMs state);
                   (WHITE_LED +:+ BREATH, 1) ].
Proof.
  intros Hmax Hmode. unfold handleNotification, getMaxBrightness, readFile.
  rewrite !ST_bind_run. simpl. rewrite Hmax, ST_bind_run.
  destruct (decide (flashMode state = TIMED)); [|contradiction].
  run_handler. reflexivity.
Qed.

Lemma handleNotification_steady state fs maxBrightness :
  attrs fs !! (WHITE_LED +:+ MAX_BRIGHTNESS) = Some maxBrightness →
  flashMode state ≠ TIMED →
  issued (handleNotification state fs).2
  = issued fs ++ [ (WHITE_LED +:+ BREATH, 0);
                   (WHITE_LED +:+ BRIGHTNESS,
                    to_int (getScaledBrightness state
                                                (to_u32 maxBrightness))) ].
Proof.
  intros Hmax Hmode. unfold handleNotification, getMaxBrightness, readFile.
  rewrite !ST_bind_run. simpl. rewrite Hmax, ST_bind_run.
  destruct (decide (flashMode state = TIMED)); [contradiction|].
  run_handler. reflexivity.
Qed.

Lemma handleBacklight_readable state fs maxBrightness :
  attrs fs !! (LCD_LED +:+ MAX_BRIGHTNESS) = Some maxBrightness →
  issued (handleBacklight state fs).2
  = issued fs ++ [ (LCD_LED +:+ BRIGHTNESS,
                    to_int (getScaledBrightness state
                                                (to_u32 maxBrightness))) ].
Proof.
  intros Hmax. unfold handleBacklight, getMaxBrightness, readFile.
  rewrite !ST_bind_run. simpl. rewrite Hmax.
  run_handler. reflexivity.
Qed.

(** An unlit state without timed flashing is rendered as brightness 0. *)
Lemma handleNotification_off state fs maxBrightness :
  attrs fs !! (WHITE_LED +:+ MAX_BRIGHTNESS) = Some maxBrightness →
  isLit state = false → flashMode state ≠ TIMED →
  issued (handleNotification state fs).2
  = issued fs ++ [ (WHITE_LED +:+ BREATH, 0);
                   (WHITE_LED +:+ BRIGHTNESS, 0) ].
Proof.
  intros Hmax Hoff Hmode.
  rewrite (handleNotification_steady state fs maxBrightness Hmax Hmode).
  unfold getScaledBrightness. rewrite (not_lit_luma state Hoff).
  reflexivity.
Qed.

End Handlers.

(** ** The controller on configured backends *)

Section Arbitration.
Context {W : Type} (call : LightStateHandler → LightState → ST W ()).

Lemma configured_inv bs :
  configured bs →
  ∃ s1 s2 s3 s4,
    bs = [ LightBackend.mk ATTENTION s1 HandleNotification;
           LightBackend.mk NOTIFICATIONS s2 HandleNotification;
           LightBackend.mk BATTERY s3 HandleNotification;
           LightBackend.mk BACKLIGHT s4 HandleBacklight ].
Proof.
  unfold configured, layout. simpl. intros E.
  destruct bs as [|[t1 s1 h1] [|[t2 s2 h2] [|[t3 s3 h3]
                  [|[t4 s4 h4] [|]]]]]; simpl in E; try discriminate.
  injection E as -> -> -> -> -> -> -> ->. eauto.
Qed.

Lemma setLight_layout type state bs w :
  layout (setLight call type state bs w).1.2 = layout bs.
Proof.
  rewrite setLight_spec.
  destruct (lookupHandler type None bs); simpl; apply cache_layout.
Qed.

Lemma setLight_backends type state bs w :
  (setLight call type state bs w).1.2 = cache type state bs.
Proof.
  rewrite setLight_spec. destruct (lookupHandler type None bs); reflexivity.
Qed.

(** The rendered state when one backend sharing the handler is lit. *)
Lemma setLight_first_lit type state bs w b first :
  NoDup (map LightBackend.type bs) →
  b ∈ bs → LightBackend.type b = type →
  winner (LightBackend.handler b) (cache type state bs) = Some first →
  setLight call type state bs w
  = (SUCCESS, cache type state bs,
     (call (LightBackend.handler b) (LightBackend.state first) w).2).
Proof.
  intros Hnd Hin <- Hwin. rewrite setLight_spec.
  rewrite (lookupHandler_unique b None bs Hnd Hin). simpl.
  rewrite Hwin. reflexivity.
Qed.

(** The rendered state when no backend sharing the handler is lit. *)
Lemma setLight_none_lit type state bs w b :
  NoDup (map LightBackend.type bs) →
  b ∈ bs → LightBackend.type b = type →
  winner (LightBackend.handler b) (cache type state bs) = None →
  setLight call type state bs w
  = (SUCCESS, cache type state bs,
     (call (LightBackend.handler b) state w).2).
Proof.
  intros Hnd Hin <- Hwin. rewrite setLight_spec.
  rewrite (lookupHandler_unique b None bs Hnd Hin). simpl.
  rewrite Hwin. reflexivity.
Qed.

Lemma attention_then_notifications attention notifications bs w :
  configured bs →
  isLit attention = true → isLit notifications = true →
  setLight call NOTIFICATIONS notifications
           (setLight call ATTENTION attention bs w).1.2
           (setLight call ATTENTION attention bs w).2
  = (SUCCESS,
     cache NOTIFICATIONS notifications (cache ATTENTION attention bs),
     (call HandleNotification attention
           (call HandleNotification attention w).2).2).
Proof.
  intros Hconf Ha Hn.
  destruct (configured_inv bs Hconf) as (s1 & s2 & s3 & s4 & ->).
  rewrite !setLight_spec. simpl. unfold winner. simpl.
  rewrite Ha. reflexivity.
Qed.

End Arbitration.

(** C1. When some backend has the given type, [setLight] stores the state in
    that backend and then renders, through that backend's handler and exactly
    once, the cached state of the first backend in construction order that
    shares the handler and is lit: the store after the call is the store after
    one handler call with that state, and the log of handler invocations
    grows by that one entry. In particular, once ATTENTION has been set lit,
    setting NOTIFICATIONS lit renders ATTENTION's state. *)
Theorem setLight_renders_first_lit :
  (∀ (W : Type) (call : LightStateHandler → LightState → ST W ())
     type state bs w b first,
     NoDup (map LightBackend.type bs) →
     b ∈ bs → LightBackend.type b = type →
     winner (LightBackend.handler b) (cache type state bs) = Some first →
     setLight call type state bs w
     = (SUCCESS, cache type state bs,
        (call (LightBackend.handler b) (LightBackend.state first) w).2))
  ∧ (∀ type state bs log b first,
       NoDup (map LightBackend.type bs) →
       b ∈ bs → LightBackend.type b = type →
       winner (LightBackend.handler b) (cache type state bs) = Some first →
       (setLight record type state bs log).2
       = log ++ [(LightBackend.handler b, LightBackend.state first)])
  ∧ (∀ attention notifications bs log,
       configured bs →
       isLit attention = true → isLit notifications = true →
       (setLight record NOTIFICATIONS notifications
                 (setLight record ATTENTION attention bs log).1.2
                 (setLight record ATTENTION attention bs log).2).2
       = log ++ [(HandleNotification, attention)]
             ++ [(HandleNotification, attention)])
  ∧ (∀ handler bs first,
       winner handler bs = Some first →
       ∃ before after,
         bs = before ++ first :: after
         ∧ handler = LightBackend.handler first
         ∧ isLit (LightBackend.state first) = true
         ∧ ∀ b, b ∈ before →
                ¬ (handler = LightBackend.handler b
                   ∧ isLit (LightBackend.state b) = true)).
Proof.
  split; [|split; [|split]]; [| | |exact winner_first].
  - intros W call type state bs w b first. apply setLight_first_lit.
  - intros type state bs log b first Hnd Hin Ht Hwin.
    rewrite (setLight_first_lit record type state bs log b first Hnd Hin Ht Hwin).
    reflexivity.
  - intros attention notifications bs log Hconf Ha Hn.
    rewrite (attention_then_notifications record attention notifications bs log
               Hconf Ha Hn).
    unfold record. simpl. rewrite <- app_assoc. reflexivity.
Qed.

Lemma setLight_renders_first_lit_witness :
  configured backends
  ∧ isLit opaque_green = true ∧ isLit opaque_white = true
  ∧ (setLight record NOTIFICATIONS opaque_white
              (setLight record ATTENTION opaque_green backends []).1.2
              (setLight record ATTENTION opaque_green backends []).2).2
    = [(HandleNotification, opaque_green); (HandleNotification, opaque_green)].
Proof.
  split; [reflexivity|]. split; [reflexivity|]. split; [reflexivity|].
  apply (proj1 (proj2 (proj2 setLight_renders_first_lit))
           opaque_green opaque_white backends []); reflexivity.
Defined.

(** C3. When no backend has the given type, [setLight] returns
    LIGHT_NOT_SUPPORTED and leaves every cached state and the store (hence the
    device) as they were; when some backend has the type it returns SUCCESS.
    On configured backends the types that have a backend are exactly
    ATTENTION, NOTIFICATIONS, BATTERY and BACKLIGHT. *)
Theorem setLight_status :
  ∀ (W : Type) (call : LightStateHandler → LightState → ST W ())
    type state bs w,
    (type ∉ map LightBackend.type bs →
     setLight call type state bs w = (LIGHT_NOT_SUPPORTED, bs, w))
    ∧ (type ∈ map LightBackend.type bs →
       (setLight call type state bs w).1.1 = SUCCESS)
    ∧ (configured bs →
       (type ∈ map LightBackend.type bs
        ↔ type ∈ [ATTENTION; NOTIFICATIONS; BATTERY; BACKLIGHT])).
Proof.
  intros W call type state bs w. split; [|split].
  - intros Hnot. rewrite setLight_spec.
    rewrite (lookupHandler_absent type None bs Hnot).
    rewrite (cache_absent type state bs Hnot). reflexivity.
  - intros Hin. rewrite setLight_spec.
    destruct (lookupHandler_present type None bs Hin) as [h ->]. reflexivity.
  - intros Hconf. rewrite (configured_types bs Hconf). reflexivity.
Qed.

Lemma setLight_status_witness :
  (WIFI ∉ map LightBackend.type backends)
  ∧ (setLight invoke WIFI opaque_green backends sample_device
     = (LIGHT_NOT_SUPPORTED, backends, sample_device))
  ∧ (BATTERY ∈ map LightBackend.type backends)
  ∧ ((setLight invoke BATTERY opaque_green backends sample_device).1.1
     = SUCCESS).
Proof.
  assert (Hnot : WIFI ∉ map LightBackend.type backends).
  { simpl. rewrite !not_elem_of_cons. repeat split; try discriminate.
    apply not_elem_of_nil. }
  assert (Hin : BATTERY ∈ map LightBackend.type backends).
  { simpl. rewrite !elem_of_cons. tauto. }
  split; [exact Hnot|]. split.
  - exact (proj1 (setLight_status Sysfs invoke WIFI opaque_green backends
                                  sample_device) Hnot).
  - split; [exact Hin|].
    exact (proj1 (proj2 (setLight_status Sysfs invoke BATTERY opaque_green
                                         backends sample_device)) Hin).
Defined.

(** ** Histories of calls *)

Section Histories.
Context {W : Type} (call : LightStateHandler → LightState → ST W ()).

Lemma runCalls_cons impl type state calls bs (w : W) :
  runCalls impl ((type, state) :: calls) bs w
  = runCalls impl calls (impl type state bs w).1.2 (impl type state bs w).2.
Proof.
  simpl. rewrite ST_bind_run.
  destruct (impl type state bs w) as [[status bs'] w']. reflexivity.
Qed.

(** Both implementations keep the backends configured along a history. *)
Lemma runCalls_layout impl calls bs (w : W) :
  (∀ type state bs w, layout (impl type state bs w).1.2 = layout bs) →
  layout (runCalls impl calls bs w).1 = layout bs.
Proof.
  intros Himpl. revert bs w.
  induction calls as [|[type state] calls IH]; intros bs w; [reflexivity|].
  rewrite runCalls_cons, IH. apply Himpl.
Qed.

Lemma getSupportedTypes_spec bs (w : W) :
  getSupportedTypes bs w = (map LightBackend.type bs, bs, w).
Proof.
  unfold getSupportedTypes. rewrite ST_ret_run. do 2 f_equal.
  assert (H : ∀ acc, foldl (λ types backend,
                              types ++ [LightBackend.type backend]) acc bs
                     = acc ++ map LightBackend.type bs).
  { induction bs as [|b bs IH]; intros acc; simpl.
    - rewrite app_nil_r. reflexivity.
    - rewrite IH, <- app_assoc. reflexivity. }
  apply (H []).
Qed.

(** After a history, each backend holds the state of the last call for its
    type, or what it held before. *)
Lemma runCalls_setLight calls bs (w : W) :
  (runCalls (setLight call) calls bs w).1
  = map (λ b, LightBackend.mk
                (LightBackend.type b)
                (default (LightBackend.state b)
                         (lastState (LightBackend.type b) calls))
                (LightBackend.handler b)) bs.
Proof.
  revert bs w.
  induction calls as [|[type state] calls IH]; intros bs w.
  - simpl. induction bs as [|[t s h] bs IHbs]; simpl; [reflexivity|].
    f_equal. exact IHbs.
  - rewrite runCalls_cons, IH, setLight_backends. unfold cache.
    rewrite map_map. apply map_ext. intros [t s h]. simpl.
    destruct (decide (t = type)) as [->|Hne]; simpl.
    + destruct (lastState type calls); simpl; [reflexivity|].
      destruct (decide (type = type)); [reflexivity|contradiction].
    + destruct (lastState t calls); simpl; [reflexivity|].
      destruct (decide (type = t)); [congruence|reflexivity].
Qed.

End Histories.

(** C2. The two [setLight] definitions are not observationally equivalent:
    setting ATTENTION lit and then NOTIFICATIONS lit, two types bound to
    [handleNotification], makes the definition of Light.cpp call the handler
    with ATTENTION's state the second time and the inline definition of
    Light.h call it with NOTIFICATIONS' state; on a device whose attributes
    open, the writes differ as well. *)
Theorem setLight_variants_differ :
  ∃ attention notifications : LightState,
    let calls := [(ATTENTION, attention); (NOTIFICATIONS, notifications)] in
    isLit attention = true ∧ isLit notifications = true
    ∧ lookupHandler ATTENTION None backends = Some HandleNotification
    ∧ lookupHandler NOTIFICATIONS None backends = Some HandleNotification
    ∧ (runCalls (setLight record) calls backends []).2
      = [(HandleNotification, attention); (HandleNotification, attention)]
    ∧ (runCalls (setLight_inline record) calls backends []).2
      = [(HandleNotification, attention); (HandleNotification, notifications)]
    ∧ (runCalls (setLight record) calls backends []).2
      ≠ (runCalls (setLight_inline record) calls backends []).2
    ∧ (runCalls (setLight record) calls backends []).1
      = (runCalls (setLight_inline record) calls backends []).1
    ∧ issued (runCalls (setLight invoke) calls backends sample_device).2
      ≠ issued (runCalls (setLight_inline invoke) calls backends
                         sample_device).2.
Proof.
  exists opaque_green, opaque_white. cbv zeta.
  repeat split; try reflexivity.
  - vm_compute. discriminate.
  - vm_compute. discriminate.
Qed.

(** C4 (the code departs from it). From the initial backends, setting
    NOTIFICATIONS to opaque black with flash mode TIMED finds no lit backend,
    so the handler is called with that state; the handler then writes breath
    0, the two delays and breath 1: no brightness is written and blinking is
    left enabled. *)
Theorem setLight_black_timed_blinks :
  winner HandleNotification (cache NOTIFICATIONS black_timed backends) = None
  ∧ isLit black_timed = false
  ∧ (setLight record NOTIFICATIONS black_timed backends []).2
    = [(HandleNotification, black_timed)]
  ∧ (setLight invoke NOTIFICATIONS black_timed backends sample_device).1.1
    = SUCCESS
  ∧ issued (setLight invoke NOTIFICATIONS black_timed backends
                     sample_device).2
    = [ (WHITE_LED +:+ BREATH, 0); (WHITE_LED +:+ DELAY_OFF, 500);
        (WHITE_LED +:+ DELAY_ON, 500); (WHITE_LED +:+ BREATH, 1) ]
  ∧ attrs (setLight invoke NOTIFICATIONS black_timed backends
                    sample_device).2 !! (WHITE_LED +:+ BREATH) = Some 1.
Proof.
  assert (Hwin : winner HandleNotification
                   (cache NOTIFICATIONS black_timed backends) = None)
    by reflexivity.
  assert (Hin : LightBackend.make NOTIFICATIONS HandleNotification ∈ backends).
  { unfold backends. rewrite !elem_of_cons. tauto. }
  pose proof (configured_NoDup backends configured_backends) as Hnd.
  split; [exact Hwin|]. split; [reflexivity|]. split; [|split; [|split]].
  - rewrite (setLight_none_lit record NOTIFICATIONS black_timed backends []
               _ Hnd Hin eq_refl Hwin). reflexivity.
  - rewrite (setLight_none_lit invoke NOTIFICATIONS black_timed backends
               sample_device _ Hnd Hin eq_refl Hwin). reflexivity.
  - rewrite (setLight_none_lit invoke NOTIFICATIONS black_timed backends
               sample_device _ Hnd Hin eq_refl Hwin).
    cbn [snd LightBackend.handler LightBackend.make invoke].
    rewrite (handleNotification_timed black_timed sample_device 255);
      reflexivity.
  - vm_compute. reflexivity.
Qed.

(** C5. With [max_brightness] readable, rendering a state whose flash mode is
    TIMED issues exactly four writes, in this order: breath 0, delay_off
    [flashOffMs], delay_on [flashOnMs], breath 1; none of them is addressed
    to the brightness attribute. *)
Theorem handleNotification_timed_writes :
  ∀ state fs maxBrightness,
    attrs fs !! (WHITE_LED +:+ MAX_BRIGHTNESS) = Some maxBrightness →
    flashMode state = TIMED →
    ∃ written,
      issued (handleNotification state fs).2 = issued fs ++ written
      ∧ written = [ (WHITE_LED +:+ BREATH, 0);
                    (WHITE_LED +:+ DELAY_OFF, flashOffMs state);
                    (WHITE_LED +:+ DELAY_ON, flashOnMs state);
                    (WHITE_LED +:+ BREATH, 1) ]
      ∧ (WHITE_LED +:+ BRIGHTNESS) ∉ map fst written.
Proof.
  intros state fs maxBrightness Hmax Hmode. eexists. split; [|split].
  - apply (handleNotification_timed state fs maxBrightness Hmax Hmode).
  - reflexivity.
  - simpl. rewrite !not_elem_of_cons. repeat split; try discriminate.
    apply not_elem_of_nil.
Qed.

Lemma handleNotification_timed_writes_witness :
  (attrs sample_device !! (WHITE_LED +:+ MAX_BRIGHTNESS) = Some 255)
  ∧ (flashMode black_timed = TIMED)
  ∧ ∃ written,
      issued (handleNotification black_timed sample_device).2
      = issued sample_device ++ written
      ∧ written = [ (WHITE_LED +:+ BREATH, 0);
                    (WHITE_LED +:+ DELAY_OFF, flashOffMs black_timed);
                    (WHITE_LED +:+ DELAY_ON, flashOnMs black_timed);
                    (WHITE_LED +:+ BREATH, 1) ]
      ∧ (WHITE_LED +:+ BRIGHTNESS) ∉ map fst written.
Proof.
  split; [reflexivity|]. split; [reflexivity|].
  apply (handleNotification_timed_writes black_timed sample_device 255);
    reflexivity.
Defined.

(** C6, as the code has it. On every colour [getBrightness] is the reference
    luma. [scaleBrightness] multiplies in 32-bit unsigned arithmetic: the
    scaled brightness is ((luma * maxBrightness) mod 2^32) / 255, which is the
    reference (luma * maxBrightness) / 255 for every maxBrightness up to
    16843009. Opaque green and maxBrightness 255 give luma 149 and scaled
    brightness 149; green at alpha 128 gives luma 75. *)
Theorem brightness_conversion_reference :
  ∀ state maxBrightness,
    getBrightness state = luma_reference (color state)
    ∧ getScaledBrightness state maxBrightness
      = (luma_reference (color state) * maxBrightness) mod 2 ^ 32 / 255
    ∧ (0 <= maxBrightness <= 16843009 →
       getScaledBrightness state maxBrightness
       = scale_reference (luma_reference (color state)) maxBrightness)
    ∧ getBrightness opaque_green = 149
    ∧ getScaledBrightness opaque_green 255 = 149
    ∧ getBrightness half_green = 75.
Proof.
  intros state maxBrightness.
  pose proof (getBrightness_range state) as Hluma.
  split; [apply getBrightness_reference|]. split; [|split].
  - unfold getScaledBrightness, scaleBrightness, to_u32, u32_modulus.
    rewrite getBrightness_reference. reflexivity.
  - intros Hmax. unfold getScaledBrightness.
    rewrite scaleBrightness_no_wrap by nia.
    rewrite getBrightness_reference. reflexivity.
  - repeat split; reflexivity.
Qed.

Lemma brightness_conversion_reference_witness :
  (0 <= 4095 <= 16843009)
  ∧ getScaledBrightness opaque_white 4095
    = scale_reference (luma_reference (color opaque_white)) 4095.
Proof.
  split; [lia|].
  apply (brightness_conversion_reference opaque_white 4095). lia.
Defined.

(** C6 as stated fails: for white and maxBrightness 16843010 the product
    255 * 16843010 exceeds 2^32 - 1, the code's scaled brightness is 0 and the
    reference is 16843010. *)
Lemma scaleBrightness_wraps :
  getBrightness opaque_white = luma_reference (color opaque_white)
  ∧ getScaledBrightness opaque_white 16843010 = 0
  ∧ scale_reference (luma_reference (color opaque_white)) 16843010 = 16843010
  ∧ getScaledBrightness opaque_white 16843010
    ≠ scale_reference (luma_reference (color opaque_white)) 16843010.
Proof.
  repeat split; try reflexivity. vm_compute. discriminate.
Qed.

(** C7. When the [max_brightness] attribute of a handler's LED cannot be
    read, the handler leaves the device as it was, issuing no write, and a
    [setLight] call for a type bound to that handler still returns SUCCESS,
    with the state cached and the device untouched. *)
Theorem unreadable_max_brightness_is_silent :
  ∀ handler state fs,
    attrs fs !! maxBrightnessPath handler = None →
    invoke handler state fs = ((), fs)
    ∧ ∀ type bs b,
        NoDup (map LightBackend.type bs) →
        b ∈ bs → LightBackend.type b = type →
        LightBackend.handler b = handler →
        setLight invoke type state bs fs
        = (SUCCESS, cache type state bs, fs).
Proof.
  intros handler state fs Hmax. split.
  - apply invoke_unreadable, Hmax.
  - intros type bs b Hnd Hin Ht Hh. rewrite setLight_spec.
    rewrite <- Ht, (lookupHandler_unique b None bs Hnd Hin), Hh. simpl.
    rewrite invoke_unreadable by exact Hmax. reflexivity.
Qed.

Lemma unreadable_max_brightness_is_silent_witness :
  (attrs bare_device !! maxBrightnessPath HandleBacklight = None)
  ∧ (invoke HandleBacklight opaque_green bare_device = ((), bare_device))
  ∧ (setLight invoke BACKLIGHT opaque_green backends bare_device
     = (SUCCESS, cache BACKLIGHT opaque_green backends, bare_device)).
Proof.
  pose proof (unreadable_max_brightness_is_silent
                HandleBacklight opaque_green bare_device eq_refl) as [H1 H2].
  split; [reflexivity|]. split; [exact H1|].
  apply (H2 BACKLIGHT backends (LightBackend.make BACKLIGHT HandleBacklight)).
  - apply configured_NoDup, configured_backends.
  - unfold backends. rewrite !elem_of_cons. tauto.
  - reflexivity.
  - reflexivity.
Defined.

(** C8. After any history of [setLight] calls, by either definition,
    [getSupportedTypes] hands ATTENTION, NOTIFICATIONS, BATTERY, BACKLIGHT to
    the callback, in this order, and leaves the backends and the store as
    they were. *)
Theorem getSupportedTypes_fixed :
  ∀ (W : Type) (call : LightStateHandler → LightState → ST W ()) calls w,
    (let '(bs, w') := runCalls (setLight call) calls backends w in
     getSupportedTypes bs w'
     = ([ATTENTION; NOTIFICATIONS; BATTERY; BACKLIGHT], bs, w'))
    ∧ (let '(bs, w') := runCalls (setLight_inline call) calls backends w in
       getSupportedTypes bs w'
       = ([ATTENTION; NOTIFICATIONS; BATTERY; BACKLIGHT], bs, w')).
Proof.
  intros W call calls w. split.
  - pose proof (runCalls_layout (setLight call) calls backends w
                  (setLight_layout call)) as Hconf.
    destruct (runCalls (setLight call) calls backends w) as [bs w'].
    rewrite getSupportedTypes_spec, (configured_types bs Hconf). reflexivity.
  - pose proof (runCalls_layout (setLight_inline call) calls backends w
                  (setLight_inline_layout call)) as Hconf.
    destruct (runCalls (setLight_inline call) calls backends w) as [bs w'].
    rewrite getSupportedTypes_spec, (configured_types bs Hconf). reflexivity.
Qed.

(** C9. The luma of every colour lies between 0 and 255, and for every
    maxBrightness (a 32-bit unsigned value, hence not negative) the scaled
    brightness the code computes is at most maxBrightness, as is the
    unbounded (luma * maxBrightness) / 255. *)
Theorem brightness_bounds :
  ∀ state maxBrightness,
    0 <= maxBrightness →
    0 <= getBrightness state <= 255
    ∧ 0 <= getScaledBrightness state maxBrightness <= maxBrightness
    ∧ 0 <= scale_reference (getBrightness state) maxBrightness
      <= maxBrightness.
Proof.
  intros state maxBrightness Hmax.
  pose proof (getBrightness_range state) as Hluma.
  split; [exact Hluma|]. split.
  - apply scaleBrightness_le; assumption.
  - apply scale_reference_le; assumption.
Qed.

Lemma brightness_bounds_witness :
  (0 <= 4294967295)
  ∧ 0 <= getBrightness opaque_white <= 255
  ∧ 0 <= getScaledBrightness opaque_white 4294967295 <= 4294967295
  ∧ 0 <= scale_reference (getBrightness opaque_white) 4294967295
    <= 4294967295.
Proof.
  split; [lia|]. apply (brightness_bounds opaque_white 4294967295). lia.
Defined.

(** C10. A [setLight] call changes no backend of another type and stores the
    state in each backend of the given type; so after any history from the
    initial backends every backend holds the state of the most recent call
    for its type, or the initial opaque black when there was none. *)
Theorem cachedState_most_recent :
  ∀ (W : Type) (call : LightStateHandler → LightState → ST W ()),
    (∀ type state bs w i b,
       bs !! i = Some b →
       (setLight call type state bs w).1.2 !! i
       = Some (if decide (LightBackend.type b = type)
               then LightBackend.mk type state (LightBackend.handler b)
               else b))
    ∧ (∀ type state bs w,
         length (setLight call type state bs w).1.2 = length bs)
    ∧ (∀ calls w b,
         b ∈ (runCalls (setLight call) calls backends w).1 →
         LightBackend.state b
         = default LightBackend.initial_state
                   (lastState (LightBackend.type b) calls)).
Proof.
  intros W call. split; [|split].
  - intros type state bs w i b Hi. rewrite setLight_backends. unfold cache.
    rewrite list_lookup_fmap, Hi. simpl.
    destruct (decide (LightBackend.type b = type)) as [<-|]; reflexivity.
  - intros type state bs w. rewrite setLight_backends. apply cache_length.
  - intros calls w b. rewrite runCalls_setLight. unfold backends. simpl.
    rewrite !elem_of_cons, elem_of_nil.
    intros [-> | [-> | [-> | [-> | []]]]]; reflexivity.
Qed.

Lemma cachedState_most_recent_witness :
  (backends !! 1%nat = Some (LightBackend.make NOTIFICATIONS HandleNotification))
  ∧ ((setLight record ATTENTION opaque_green backends []).1.2 !! 1%nat
     = Some (LightBackend.make NOTIFICATIONS HandleNotification))
  ∧ ((setLight record NOTIFICATIONS opaque_green backends []).1.2 !! 1%nat
     = Some (LightBackend.mk NOTIFICATIONS opaque_green HandleNotification))
  ∧ (LightBackend.mk ATTENTION opaque_white HandleNotification
     ∈ (runCalls (setLight record)
                 [(ATTENTION, opaque_green); (ATTENTION, opaque_white)]
                 backends []).1)
  ∧ (opaque_white
     = default LightBackend.initial_state
               (lastState ATTENTION
                          [(ATTENTION, opaque_green);
                           (ATTENTION, opaque_white)])).
Proof.
  assert (Hin : LightBackend.mk ATTENTION opaque_white HandleNotification
                ∈ (runCalls (setLight record)
                            [(ATTENTION, opaque_green);
                             (ATTENTION, opaque_white)] backends []).1).
  { vm_compute. apply list_elem_of_here. }
  split; [reflexivity|]. split; [|split; [|split; [exact Hin|]]].
  3: { exact (proj2 (proj2 (cachedState_most_recent _ record))
                [(ATTENTION, opaque_green); (ATTENTION, opaque_white)] []
                _ Hin). }
  - apply (proj1 (cachedState_most_recent _ record)
             ATTENTION opaque_green backends [] 1%nat
             (LightBackend.make NOTIFICATIONS HandleNotification)).
    reflexivity.
  - apply (proj1 (cachedState_most_recent _ record)
             NOTIFICATIONS opaque_green backends [] 1%nat
             (LightBackend.make NOTIFICATIONS HandleNotification)).
    reflexivity.
Defined.

(** ** The device under the handlers *)

Section Device.

Lemma writeFile_lookup_ne path value fs q :
  path ≠ q → attrs (writeFile path value fs).2 !! q = attrs fs !! q.
Proof.
  intros Hne. unfold writeFile. destruct (attrs fs !! path); simpl.
  - apply lookup_insert_ne, Hne.
  - reflexivity.
Qed.

Lemma writeFile_lookup_eq path value fs :
  attrs (writeFile path value fs).2 !! path
  = (λ _, value) <$> attrs fs !! path.
Proof.
  unfold writeFile. destruct (attrs fs !! path) eqn:E; simpl.
  - apply lookup_insert_eq.
  - rewrite E. reflexivity.
Qed.

Lemma writeFile_dom path value fs :
  dom (attrs (writeFile path value fs).2) = dom (attrs fs).
Proof.
  unfold writeFile. destruct (attrs fs !! path) eqn:E; simpl; [|reflexivity].
  rewrite dom_insert_L. apply subseteq_union_1_L, singleton_subseteq_l.
  apply elem_of_dom. rewrite E. eauto.
Qed.

(** The handlers as sequences of [writeFile] calls. *)
Lemma handleNotification_timed_run state fs maxBrightness :
  attrs fs !! (WHITE_LED +:+ MAX_BRIGHTNESS) = Some maxBrightness →
  flashMode state = TIMED →
  (handleNotification state fs).2
  = (writeFile (WHITE_LED +:+ BREATH) 1
       (writeFile (WHITE_LED +:+ DELAY_ON) (flashOnMs state)
          (writeFile (WHITE_LED +:+ DELAY_OFF) (flashOffMs state)
             (writeFile (WHITE_LED +:+ BREATH) 0 fs).2).2).2).2.
Proof.
  intros Hmax Hmode. unfold handleNotification, getMaxBrightness, readFile.
  rewrite !ST_bind_run. simpl. rewrite Hmax, ST_bind_run.
  destruct (decide (flashMode state = TIMED)); [|contradiction].
  rewrite !ST_bind_run, ST_ret_run. reflexivity.
Qed.

Lemma handleNotification_steady_run state fs maxBrightness :
  attrs fs !! (WHITE_LED +:+ MAX_BRIGHTNESS) = Some maxBrightness →
  flashMode state ≠ TIMED →
  (handleNotification state fs).2
  = (writeFile (WHITE_LED +:+ BRIGHTNESS)
       (to_int (getScaledBrightness state (to_u32 maxBrightness)))
       (writeFile (WHITE_LED +:+ BREATH) 0 fs).2).2.
Proof.
  intros Hmax Hmode. unfold handleNotification, getMaxBrightness, readFile.
  rewrite !ST_bind_run. simpl. rewrite Hmax, ST_bind_run.
  destruct (decide (flashMode state = TIMED)); [contradiction|].
  rewrite !ST_bind_run, ST_ret_run. reflexivity.
Qed.

Lemma handleBacklight_run state fs maxBrightness :
  attrs fs !! (LCD_LED +:+ MAX_BRIGHTNESS) = Some maxBrightness →
  (handleBacklight state fs).2
  = (writeFile (LCD_LED +:+ BRIGHTNESS)
       (to_int (getScaledBrightness state (to_u32 maxBrightness))) fs).2.
Proof.
  intros Hmax. unfold handleBacklight, getMaxBrightness, readFile.
  rewrite !ST_bind_run. simpl. rewrite Hmax.
  rewrite !ST_bind_run, ST_ret_run. reflexivity.
Qed.

(** What one handler call may touch: attributes outside [writablePaths] keep
    their value, no attribute appears or disappears, and at most four writes,
    all to [writablePaths], are issued. *)
Lemma invoke_footprint handler state fs :
  (∀ p, p ∉ writablePaths handler →
        attrs (invoke handler state fs).2 !! p = attrs fs !! p)
  ∧ dom (attrs (invoke handler state fs).2) = dom (attrs fs)
  ∧ ∃ written,
      issued (invoke handler state fs).2 = issued fs ++ written
      ∧ (length written ≤ 4)%nat
      ∧ Forall (λ pv, pv.1 ∈ writablePaths handler) written.
Proof.
  destruct (attrs fs !! maxBrightnessPath handler) as [m|] eqn:Hmax.
  2: { rewrite (invoke_unreadable handler state fs Hmax). simpl.
       split; [reflexivity|]. split; [reflexivity|].
       exists []. rewrite app_nil_r. repeat split; [simpl; lia|constructor]. }
  destruct handler; simpl in *.
  - destruct (decide (flashMode state = TIMED)) as [Hmode|Hmode].
    + rewrite (handleNotification_timed_run state fs m Hmax Hmode).
      split; [|split].
      * intros p Hp. rewrite !not_elem_of_cons in Hp.
        destruct Hp as (H1 & H2 & H3 & H4 & _).
        rewrite !writeFile_lookup_ne by congruence. reflexivity.
      * rewrite !writeFile_dom. reflexivity.
      * eexists. rewrite !writeFile_issued, <- !app_assoc. simpl.
        split; [reflexivity|]. split; [simpl; lia|].
        repeat constructor; simpl; rewrite !elem_of_cons; tauto.
    + rewrite (handleNotification_steady_run state fs m Hmax Hmode).
      split; [|split].
      * intros p Hp. rewrite !not_elem_of_cons in Hp.
        destruct Hp as (H1 & H2 & H3 & H4 & _).
        rewrite !writeFile_lookup_ne by congruence. reflexivity.
      * rewrite !writeFile_dom. reflexivity.
      * eexists. rewrite !writeFile_issued, <- !app_assoc. simpl.
        split; [reflexivity|]. split; [simpl; lia|].
        repeat constructor; simpl; rewrite !elem_of_cons; tauto.
  - rewrite (handleBacklight_run state fs m Hmax).
    split; [|split].
    + intros p Hp. rewrite !not_elem_of_cons in Hp.
      destruct Hp as (H1 & _).
      rewrite !writeFile_lookup_ne by congruence. reflexivity.
    + rewrite !writeFile_dom. reflexivity.
    + eexists. rewrite !writeFile_issued. simpl.
      split; [reflexivity|]. split; [simpl; lia|].
      repeat constructor; simpl; rewrite !elem_of_cons; tauto.
Qed.

(** A brightness computed against a non-negative [int] maximum is written
    unchanged and stays within it. *)
Lemma written_brightness_range state maxBrightness :
  0 <= maxBrightness < 2 ^ 31 →
  to_int (getScaledBrightness state (to_u32 maxBrightness))
  = getScaledBrightness state maxBrightness
  ∧ 0 <= getScaledBrightness state maxBrightness <= maxBrightness.
Proof.
  intros Hm. rewrite to_u32_small by lia.
  pose proof (getBrightness_range state) as Hl.
  pose proof (scaleBrightness_le (getBrightness state) maxBrightness Hl
                ltac:(lia)) as Hs.
  fold (getScaledBrightness state maxBrightness) in Hs.
  split; [|exact Hs].
  unfold to_int. rewrite to_u32_small by lia.
  destruct (decide (getScaledBrightness state maxBrightness < 2 ^ 31)); lia.
Qed.

End Device.

(** ** More on the controller *)

Section MoreArbitration.
Context {W : Type} (call : LightStateHandler → LightState → ST W ()).

Lemma winner_none handler bs :
  winner handler bs = None →
  ∀ b, b ∈ bs →
       ¬ (handler = LightBackend.handler b
          ∧ isLit (LightBackend.state b) = true).
Proof.
  unfold winner. induction bs as [|b' bs IH]; simpl; intros Hfind b Hin.
  - apply elem_of_nil in Hin. contradiction.
  - destruct (bool_decide (handler = LightBackend.handler b')
              && isLit (LightBackend.state b')) eqn:Hb; [discriminate|].
    apply elem_of_cons in Hin as [->|Hin].
    + intros [Hh Hl]. rewrite Hl, andb_true_r in Hb.
      apply bool_decide_eq_false in Hb. contradiction.
    + apply IH; assumption.
Qed.

Lemma winner_elem handler bs shown :
  winner handler bs = Some shown →
  shown ∈ bs ∧ handler = LightBackend.handler shown
  ∧ isLit (LightBackend.state shown) = true.
Proof.
  intros Hwin.
  destruct (winner_first handler bs shown Hwin)
    as (before & after & -> & Hh & Hl & _).
  split; [|split; assumption].
  apply elem_of_app. right. apply list_elem_of_here.
Qed.

Lemma cache_idempotent type state bs :
  cache type state (cache type state bs) = cache type state bs.
Proof.
  unfold cache. rewrite map_map. apply map_ext. intros b.
  destruct (decide (LightBackend.type b = type)) as [E|E]; simpl.
  - destruct (decide (LightBackend.type b = type)); [reflexivity|].
    contradiction.
  - destruct (decide (LightBackend.type b = type)); [contradiction|].
    reflexivity.
Qed.

Lemma cache_commute type1 state1 type2 state2 bs :
  type1 ≠ type2 →
  cache type2 state2 (cache type1 state1 bs)
  = cache type1 state1 (cache type2 state2 bs).
Proof.
  intros Hne. unfold cache. rewrite !map_map. apply map_ext. intros b.
  destruct (decide (LightBackend.type b = type1)) as [E1|E1];
    destruct (decide (LightBackend.type b = type2)) as [E2|E2]; simpl;
    repeat match goal with
           | |- context [decide (?x = ?y)] => destruct (decide (x = y))
           end; congruence.
Qed.

Lemma cache_types type state bs :
  map LightBackend.type (cache type state bs) = map LightBackend.type bs.
Proof. rewrite !layout_types, cache_layout. reflexivity. Qed.

(** The inline [setLight] on a type without a backend. *)
Lemma setLight_inline_absent type state bs w :
  type ∉ map LightBackend.type bs →
  setLight_inline call type state bs w = (LIGHT_NOT_SUPPORTED, bs, w).
Proof.
  induction bs as [|b bs IH]; simpl; intros Hnot; [reflexivity|].
  apply not_elem_of_cons in Hnot as [Hne Hrest].
  destruct (decide (LightBackend.type b = type)); [congruence|].
  rewrite ST_bind_run, (IH Hrest). reflexivity.
Qed.

(** The inline [setLight] on the type of a backend, one backend per type. *)
Lemma setLight_inline_present b state bs w :
  NoDup (map LightBackend.type bs) → b ∈ bs →
  setLight_inline call (LightBackend.type b) state bs w
  = (SUCCESS, cache (LightBackend.type b) state bs,
     (call (LightBackend.handler b) state w).2).
Proof.
  induction bs as [|b' bs IH]; simpl; intros Hnd Hin.
  - apply elem_of_nil in Hin. contradiction.
  - apply NoDup_cons in Hnd as [Hfresh Hnd].
    destruct (decide (LightBackend.type b' = LightBackend.type b)) as [E|E].
    + assert (b = b') as ->.
      { apply elem_of_cons in Hin as [->|Hin]; [reflexivity|].
        exfalso. apply Hfresh. rewrite E. apply list_elem_of_fmap.
        exists b. split; [reflexivity|exact Hin]. }
      rewrite ST_bind_run, ST_ret_run.
      rewrite (cache_absent _ state bs Hfresh). reflexivity.
    + apply elem_of_cons in Hin as [->|Hin]; [contradiction|].
      rewrite ST_bind_run, (IH Hnd Hin). reflexivity.
Qed.

(** BACKLIGHT is the only type bound to [handleBacklight]: its own state is
    what gets rendered. *)
Lemma setLight_backlight state bs w :
  configured bs →
  setLight call BACKLIGHT state bs w
  = (SUCCESS, cache BACKLIGHT state bs, (call HandleBacklight state w).2).
Proof.
  intros Hconf.
  destruct (configured_inv bs Hconf) as (s1 & s2 & s3 & s4 & ->).
  rewrite setLight_spec. simpl. unfold winner. simpl.
  destruct (isLit state); reflexivity.
Qed.

(** The store after a call is the store before it, or the store after one
    handler call. *)
Lemma setLight_store type state bs w :
  (setLight call type state bs w).2 = w
  ∨ ∃ handler rendered,
      (setLight call type state bs w).2 = (call handler rendered w).2.
Proof.
  rewrite setLight_spec.
  destruct (lookupHandler type None bs) as [h|]; simpl; eauto.
Qed.

Lemma setLight_inline_store type state bs w :
  (setLight_inline call type state bs w).2 = w
  ∨ ∃ handler rendered,
      (setLight_inline call type state bs w).2 = (call handler rendered w).2.
Proof.
  induction bs as [|b bs IH]; simpl; [left; reflexivity|].
  destruct (decide (LightBackend.type b = type)).
  - right. exists (LightBackend.handler b), state.
    rewrite ST_bind_run, ST_ret_run. reflexivity.
  - rewrite ST_bind_run.
    destruct (setLight_inline call type state bs w) as [[status bs'] w'].
    exact IH.
Qed.

(** A quantity no handler call changes is the same after any history. *)
Lemma runCalls_preserves {X : Type} (f : W → X) impl calls bs w :
  (∀ type state bs w,
     (impl type state bs w).2 = w
     ∨ ∃ handler rendered,
         (impl type state bs w).2 = (call handler rendered w).2) →
  (∀ handler state w, f (call handler state w).2 = f w) →
  f (runCalls impl calls bs w).2 = f w.
Proof.
  intros Himpl Hcall. revert bs w.
  induction calls as [|[type state] calls IH]; intros bs w; [reflexivity|].
  rewrite runCalls_cons, IH.
  destruct (Himpl type state bs w) as [->|(h & r & ->)];
    [reflexivity|apply Hcall].
Qed.

(** Along a history the backends evolve by [cache], for any implementation
    whose single step does. *)
Lemma runCalls_backends impl calls bs (w : W) :
  (∀ type state bs w,
     NoDup (map LightBackend.type bs) →
     (impl type state bs w).1.2 = cache type state bs) →
  NoDup (map LightBackend.type bs) →
  (runCalls impl calls bs w).1
  = foldl (λ bs c, cache c.1 c.2 bs) bs calls.
Proof.
  intros Himpl. revert bs w.
  induction calls as [|[type state] calls IH]; intros bs w Hnd;
    [reflexivity|].
  rewrite runCalls_cons. simpl. rewrite (Himpl type state bs w Hnd).
  apply IH. rewrite cache_types. exact Hnd.
Qed.

Lemma setLight_inline_backends type state bs w :
  NoDup (map LightBackend.type bs) →
  (setLight_inline call type state bs w).1.2 = cache type state bs.
Proof.
  intros Hnd.
  destruct (decide (type ∈ map LightBackend.type bs)) as [Hin|Hnot].
  - apply list_elem_of_fmap in Hin as (b & -> & Hin).
    rewrite (setLight_inline_present b state bs w Hnd Hin). reflexivity.
  - rewrite (setLight_inline_absent type state bs w Hnot).
    rewrite (cache_absent type state bs Hnot). reflexivity.
Qed.

Lemma runCalls_app impl calls1 calls2 bs (w : W) :
  runCalls impl (calls1 ++ calls2) bs w
  = runCalls impl calls2 (runCalls impl calls1 bs w).1
                         (runCalls impl calls1 bs w).2.
Proof.
  revert bs w.
  induction calls1 as [|[type state] calls1 IH]; intros bs w; [reflexivity|].
  rewrite <- app_comm_cons, !runCalls_cons. apply IH.
Qed.

End MoreArbitration.

(** ** Further properties of the handlers and the device *)

(** X1. With a readable, non-negative backlight [max_brightness],
    [handleBacklight] issues exactly one write, to the backlight brightness
    attribute, and the value written is the scaled brightness, between 0 and
    [max_brightness]. *)
Theorem handleBacklight_write_bounded :
  ∀ state fs maxBrightness,
    attrs fs !! (LCD_LED +:+ MAX_BRIGHTNESS) = Some maxBrightness →
    0 <= maxBrightness < 2 ^ 31 →
    ∃ value,
      issued (handleBacklight state fs).2
      = issued fs ++ [(LCD_LED +:+ BRIGHTNESS, value)]
      ∧ value = getScaledBrightness state maxBrightness
      ∧ 0 <= value <= maxBrightness.
Proof.
  intros state fs m Hmax Hm.
  destruct (written_brightness_range state m Hm) as [Hint Hrange].
  exists (getScaledBrightness state m).
  rewrite (handleBacklight_readable state fs m Hmax), Hint. auto.
Qed.

Lemma handleBacklight_write_bounded_witness :
  (attrs sample_device !! (LCD_LED +:+ MAX_BRIGHTNESS) = Some 255)
  ∧ (0 <= 255 < 2 ^ 31)
  ∧ ∃ value,
      issued (handleBacklight half_green sample_device).2
      = issued sample_device ++ [(LCD_LED +:+ BRIGHTNESS, value)]
      ∧ value = getScaledBrightness half_green 255
      ∧ 0 <= value <= 255.
Proof.
  split; [reflexivity|]. split; [lia|].
  apply (handleBacklight_write_bounded half_green sample_device 255);
    [reflexivity|lia].
Defined.

(** X2. With a readable, non-negative LED [max_brightness], rendering a
    state whose flash mode is not TIMED (NONE or HARDWARE) issues exactly
    breath 0 and then the scaled brightness, which lies between 0 and
    [max_brightness]; the delays are not written. *)
Theorem handleNotification_steady_write_bounded :
  ∀ state fs maxBrightness,
    attrs fs !! (WHITE_LED +:+ MAX_BRIGHTNESS) = Some maxBrightness →
    0 <= maxBrightness < 2 ^ 31 →
    flashMode state ≠ TIMED →
    ∃ value,
      issued (handleNotification state fs).2
      = issued fs ++ [ (WHITE_LED +:+ BREATH, 0);
                       (WHITE_LED +:+ BRIGHTNESS, value) ]
      ∧ value = getScaledBrightness state maxBrightness
      ∧ 0 <= value <= maxBrightness.
Proof.
  intros state fs m Hmax Hm Hmode.
  destruct (written_brightness_range state m Hm) as [Hint Hrange].
  exists (getScaledBrightness state m).
  rewrite (handleNotification_steady state fs m Hmax Hmode), Hint. auto.
Qed.

Lemma handleNotification_steady_write_bounded_witness :
  (attrs sample_device !! (WHITE_LED +:+ MAX_BRIGHTNESS) = Some 255)
  ∧ (0 <= 255 < 2 ^ 31)
  ∧ (flashMode (mkLightState 4294967295 HARDWARE 100 100 USER) ≠ TIMED)
  ∧ ∃ value,
      issued (handleNotification
                (mkLightState 4294967295 HARDWARE 100 100 USER)
                sample_device).2
      = issued sample_device ++ [ (WHITE_LED +:+ BREATH, 0);
                                  (WHITE_LED +:+ BRIGHTNESS, value) ]
      ∧ value = getScaledBrightness
                  (mkLightState 4294967295 HARDWARE 100 100 USER) 255
      ∧ 0 <= value <= 255.
Proof.
  assert (Hmode : flashMode (mkLightState 4294967295 HARDWARE 100 100 USER)
                  ≠ TIMED) by discriminate.
  split; [reflexivity|]. split; [lia|]. split; [exact Hmode|].
  apply (handleNotification_steady_write_bounded
           (mkLightState 4294967295 HARDWARE 100 100 USER) sample_device 255);
    [reflexivity|lia|exact Hmode].
Defined.



(** X4. A [setLight] call for the type of a backend touches only the
    attributes of that backend's handler: every other attribute keeps its
    value, and the call issues at most four writes, all to those attributes.
    The attribute of the backlight handler is none of the LED handler's, so a
    BACKLIGHT call never disturbs the LED, and the other way round. *)
Theorem setLight_footprint :
  ∀ type state bs fs b,
    NoDup (map LightBackend.type bs) →
    b ∈ bs → LightBackend.type b = type →
    let fs' := (setLight invoke type state bs fs).2 in
    (∀ p, p ∉ writablePaths (LightBackend.handler b) →
          attrs fs' !! p = attrs fs !! p)
    ∧ (∃ written,
         issued fs' = issued fs ++ written
         ∧ (length written ≤ 4)%nat
         ∧ Forall (λ pv, pv.1 ∈ writablePaths (LightBackend.handler b))
                  written)
    ∧ (∀ p, p ∈ writablePaths HandleBacklight →
            p ∉ writablePaths HandleNotification).
Proof.
  intros type state bs fs b Hnd Hin <- fs'. subst fs'.
  rewrite setLight_spec, (lookupHandler_unique b None bs Hnd Hin). simpl.
  match goal with
  | |- context [invoke _ ?r fs] =>
      destruct (invoke_footprint (LightBackend.handler b) r fs)
        as (Hattrs & _ & Hissued)
  end.
  split; [exact Hattrs|]. split; [exact Hissued|].
  intros p Hp. apply list_elem_of_singleton in Hp as ->.
  simpl. rewrite !not_elem_of_cons.
  repeat split; try (intros E; vm_compute in E; discriminate E).
  apply not_elem_of_nil.
Qed.

Lemma setLight_footprint_witness :
  NoDup (map LightBackend.type backends)
  ∧ (LightBackend.make BACKLIGHT HandleBacklight ∈ backends)
  ∧ (attrs (setLight invoke BACKLIGHT opaque_white backends sample_device).2
       !! (WHITE_LED +:+ BRIGHTNESS)
     = attrs sample_device !! (WHITE_LED +:+ BRIGHTNESS)).
Proof.
  assert (Hnd : NoDup (map LightBackend.type backends))
    by (apply configured_NoDup, configured_backends).
  assert (Hin : LightBackend.make BACKLIGHT HandleBacklight ∈ backends).
  { unfold backends. rewrite !elem_of_cons. tauto. }
  split; [exact Hnd|]. split; [exact Hin|].
  apply (proj1 (setLight_footprint BACKLIGHT opaque_white backends
                  sample_device _ Hnd Hin eq_refl)).
  simpl. rewrite not_elem_of_cons. split.
  - intros E. vm_compute in E. discriminate E.
  - apply not_elem_of_nil.
Defined.

(** Along a history, by either definition, the attribute set and the two
    [max_brightness] attributes stay as they are. *)
Lemma runCalls_device_invariant impl calls bs fs handler :
  (∀ type state bs w,
     (impl type state bs w).2 = w
     ∨ ∃ h rendered, (impl type state bs w).2 = (invoke h rendered w).2) →
  attrs (runCalls impl calls bs fs).2 !! maxBrightnessPath handler
  = attrs fs !! maxBrightnessPath handler
  ∧ dom (attrs (runCalls impl calls bs fs).2) = dom (attrs fs).
Proof.
  intros Himpl.
  assert (Hcall : ∀ h state w,
            (attrs (invoke h state w).2 !! maxBrightnessPath handler,
             dom (attrs (invoke h state w).2))
            = (attrs w !! maxBrightnessPath handler, dom (attrs w))).
  { intros h state w.
    destruct (invoke_footprint h state w) as (Hattrs & Hdom & _).
    rewrite Hdom, Hattrs; [reflexivity|].
    destruct h, handler; simpl; rewrite !not_elem_of_cons;
      repeat split; try (intros E; vm_compute in E; discriminate E);
      apply not_elem_of_nil. }
  pose proof (runCalls_preserves invoke
                (λ w, (attrs w !! maxBrightnessPath handler, dom (attrs w)))
                impl calls bs fs Himpl Hcall) as E.
  simpl in E. injection E as E1 E2. split; assumption.
Qed.

(** X5. No history of [setLight] calls, by either definition, changes a
    [max_brightness] attribute or the set of attributes that exist: whether
    an LED can be driven, and the range it is driven in, are the same for
    every call. *)
Theorem max_brightness_never_changes :
  ∀ calls bs fs handler,
    (attrs (runCalls (setLight invoke) calls bs fs).2
       !! maxBrightnessPath handler
     = attrs fs !! maxBrightnessPath handler
     ∧ dom (attrs (runCalls (setLight invoke) calls bs fs).2)
       = dom (attrs fs))
    ∧ (attrs (runCalls (setLight_inline invoke) calls bs fs).2
         !! maxBrightnessPath handler
       = attrs fs !! maxBrightnessPath handler
       ∧ dom (attrs (runCalls (setLight_inline invoke) calls bs fs).2)
         = dom (attrs fs)).
Proof.
  intros calls bs fs handler. split.
  - apply runCalls_device_invariant, (setLight_store invoke).
  - apply runCalls_device_invariant, (setLight_inline_store invoke).
Qed.

(** ** Further properties of the two controllers *)

(** X6. On configured backends a BACKLIGHT call always renders the state it
    was given, lit or not, through [handleBacklight]: no other type shares
    that handler. For this type the inline definition of Light.h and the
    definition of Light.cpp do the same. *)
Theorem setLight_backlight_own_state :
  ∀ (W : Type) (call : LightStateHandler → LightState → ST W ()) state bs w,
    configured bs →
    setLight call BACKLIGHT state bs w
    = (SUCCESS, cache BACKLIGHT state bs, (call HandleBacklight state w).2)
    ∧ setLight_inline call BACKLIGHT state bs w
      = setLight call BACKLIGHT state bs w.
Proof.
  intros W call state bs w Hconf.
  rewrite (setLight_backlight call state bs w Hconf).
  split; [reflexivity|].
  pose proof (configured_NoDup bs Hconf) as Hnd.
  destruct (configured_inv bs Hconf) as (s1 & s2 & s3 & s4 & ->).
  apply (setLight_inline_present call
           (LightBackend.mk BACKLIGHT s4 HandleBacklight) state _ w Hnd).
  rewrite !elem_of_cons. tauto.
Qed.

Lemma setLight_backlight_own_state_witness :
  configured backends
  ∧ setLight record BACKLIGHT LightBackend.initial_state backends []
    = (SUCCESS, cache BACKLIGHT LightBackend.initial_state backends,
       [(HandleBacklight, LightBackend.initial_state)]).
Proof.
  split; [reflexivity|].
  apply (proj1 (setLight_backlight_own_state _ record
                  LightBackend.initial_state backends []
                  configured_backends)).
Defined.

(** X7. The inline [setLight] of Light.h, with one backend per type: for the
    type of a backend it stores the state, calls that backend's handler once
    with the state just given, whatever the other backends hold, and returns
    SUCCESS; for a type without a backend it returns LIGHT_NOT_SUPPORTED and
    changes nothing. *)
Theorem setLight_inline_last_writer :
  ∀ (W : Type) (call : LightStateHandler → LightState → ST W ())
    type state bs w,
    (∀ b, NoDup (map LightBackend.type bs) → b ∈ bs →
          LightBackend.type b = type →
          setLight_inline call type state bs w
          = (SUCCESS, cache type state bs,
             (call (LightBackend.handler b) state w).2))
    ∧ (type ∉ map LightBackend.type bs →
       setLight_inline call type state bs w = (LIGHT_NOT_SUPPORTED, bs, w)).
Proof.
  intros W call type state bs w. split.
  - intros b Hnd Hin <-. apply setLight_inline_present; assumption.
  - apply setLight_inline_absent.
Qed.

Lemma setLight_inline_last_writer_witness :
  NoDup (map LightBackend.type backends)
  ∧ (LightBackend.make BATTERY HandleNotification ∈
       cache ATTENTION opaque_white backends)
  ∧ (setLight_inline record BATTERY opaque_green
                     (cache ATTENTION opaque_white backends) []
     = (SUCCESS,
        cache BATTERY opaque_green (cache ATTENTION opaque_white backends),
        [(HandleNotification, opaque_green)]))
  ∧ (KEYBOARD ∉ map LightBackend.type backends)
  ∧ (setLight_inline record KEYBOARD opaque_green backends []
     = (LIGHT_NOT_SUPPORTED, backends, [])).
Proof.
  assert (Hnd : NoDup (map LightBackend.type backends))
    by (apply configured_NoDup, configured_backends).
  assert (Hin : LightBackend.make BATTERY HandleNotification
                ∈ cache ATTENTION opaque_white backends).
  { simpl. rewrite !elem_of_cons. tauto. }
  assert (Hnot : KEYBOARD ∉ map LightBackend.type backends).
  { simpl. rewrite !not_elem_of_cons. repeat split; try discriminate.
    apply not_elem_of_nil. }
  split; [exact Hnd|]. split; [exact Hin|]. split; [|split; [exact Hnot|]].
  - apply (proj1 (setLight_inline_last_writer _ record BATTERY opaque_green
                    (cache ATTENTION opaque_white backends) [])
             (LightBackend.make BATTERY HandleNotification)).
    + exact Hnd.
    + exact Hin.
    + reflexivity.
  - apply (proj2 (setLight_inline_last_writer _ record KEYBOARD opaque_green
                    backends [])). exact Hnot.
Defined.

(** X8. With one backend per type, the two [setLight] definitions leave the
    same cached states after any history: they differ in what they render,
    never in what they remember. *)
Theorem setLight_variants_same_cache :
  ∀ (W : Type) (call : LightStateHandler → LightState → ST W ())
    calls bs w,
    NoDup (map LightBackend.type bs) →
    (runCalls (setLight_inline call) calls bs w).1
    = (runCalls (setLight call) calls bs w).1.
Proof.
  intros W call calls bs w Hnd.
  rewrite (runCalls_backends (setLight_inline call) calls bs w
             (λ t s bs w, setLight_inline_backends call t s bs w) Hnd).
  rewrite (runCalls_backends (setLight call) calls bs w
             (λ t s bs w _, setLight_backends call t s bs w) Hnd).
  reflexivity.
Qed.

Lemma setLight_variants_same_cache_witness :
  NoDup (map LightBackend.type backends)
  ∧ (runCalls (setLight_inline invoke)
              [(ATTENTION, opaque_green); (NOTIFICATIONS, opaque_white)]
              backends sample_device).1
    = (runCalls (setLight invoke)
                [(ATTENTION, opaque_green); (NOTIFICATIONS, opaque_white)]
                backends sample_device).1.
Proof.
  assert (Hnd : NoDup (map LightBackend.type backends))
    by (apply configured_NoDup, configured_backends).
  split; [exact Hnd|].
  apply (setLight_variants_same_cache _ invoke), Hnd.
Defined.

Section MoreHistories.
Context {W : Type} (call : LightStateHandler → LightState → ST W ()).

Lemma lastState_snoc type calls type' state :
  lastState type (calls ++ [(type', state)])
  = if decide (type' = type) then Some state else lastState type calls.
Proof.
  induction calls as [|[t s] calls IH]; simpl.
  - destruct (decide (type' = type)); reflexivity.
  - rewrite IH. destruct (decide (type' = type)); reflexivity.
Qed.

Lemma setLight_inline_status type state bs w :
  type ∈ map LightBackend.type bs →
  (setLight_inline call type state bs w).1.1 = SUCCESS.
Proof.
  induction bs as [|b bs IH]; simpl; intros Hin.
  - apply elem_of_nil in Hin. contradiction.
  - destruct (decide (LightBackend.type b = type)) as [E|E].
    + rewrite ST_bind_run, ST_ret_run. reflexivity.
    + apply elem_of_cons in Hin as [Hin|Hin]; [congruence|].
      rewrite ST_bind_run. specialize (IH Hin).
      destruct (setLight_inline call type state bs w) as [[status bs'] w'].
      exact IH.
Qed.

Lemma setLight_types type state bs w :
  map LightBackend.type (setLight call type state bs w).1.2
  = map LightBackend.type bs.
Proof. rewrite setLight_backends. apply cache_types. Qed.

(** The rendering of a call for ATTENTION, NOTIFICATIONS or BATTERY on
    explicit backends. *)
Lemma setLight_group type state s1 s2 s3 s4 w :
  type ∈ [ATTENTION; NOTIFICATIONS; BATTERY] →
  let pick t s := if decide (t = type) then state else s in
  (setLight call type state
     [ LightBackend.mk ATTENTION s1 HandleNotification;
       LightBackend.mk NOTIFICATIONS s2 HandleNotification;
       LightBackend.mk BATTERY s3 HandleNotification;
       LightBackend.mk BACKLIGHT s4 HandleBacklight ] w).2
  = (call HandleNotification
       (if isLit (pick ATTENTION s1) then pick ATTENTION s1
        else if isLit (pick NOTIFICATIONS s2) then pick NOTIFICATIONS s2
        else if isLit (pick BATTERY s3) then pick BATTERY s3
        else state) w).2.
Proof.
  intros Hin pick. subst pick. rewrite setLight_spec.
  rewrite !elem_of_cons, elem_of_nil in Hin.
  destruct Hin as [-> | [-> | [-> | []]]]; simpl; unfold winner; simpl.
  - destruct (isLit state), (isLit s2), (isLit s3); reflexivity.
  - destruct (isLit s1), (isLit state), (isLit s3); reflexivity.
  - destruct (isLit s1), (isLit s2), (isLit state); reflexivity.
Qed.

(** The last call of a history, for a type of the LED group. *)
Lemma runCalls_group_snoc calls type state w :
  type ∈ [ATTENTION; NOTIFICATIONS; BATTERY] →
  (runCalls (setLight call) (calls ++ [(type, state)]) backends w).2
  = (call HandleNotification
          (shownAfter (calls ++ [(type, state)]) state)
          (runCalls (setLight call) calls backends w).2).2.
Proof.
  intros Hin.
  rewrite runCalls_app, runCalls_cons. simpl.
  rewrite runCalls_setLight. unfold backends. simpl.
  rewrite (setLight_group type state _ _ _ _ _ Hin).
  unfold shownAfter, cachedAfter. rewrite !lastState_snoc.
  rewrite !elem_of_cons, elem_of_nil in Hin.
  destruct Hin as [-> | [-> | [-> | []]]]; simpl; reflexivity.
Qed.

(** The last call of a history, for BACKLIGHT. *)
Lemma runCalls_backlight_snoc calls state w :
  (runCalls (setLight call) (calls ++ [(BACKLIGHT, state)]) backends w).2
  = (call HandleBacklight state
          (runCalls (setLight call) calls backends w).2).2.
Proof.
  rewrite runCalls_app, runCalls_cons. simpl.
  rewrite setLight_backlight; [reflexivity|].
  unfold configured.
  apply (runCalls_layout (setLight call) calls backends w
           (setLight_layout call)).
Qed.

End MoreHistories.

(** X9. A lit light is never blanked by another call of its group: if, after
    the cache update, some backend sharing the handler is lit, then the state
    [setLight] renders is the cached state of a lit backend sharing the
    handler, even when the call itself switched its own light off. *)
Theorem lit_backend_is_never_blanked :
  ∀ (W : Type) (call : LightStateHandler → LightState → ST W ())
    type state bs w b lit,
    NoDup (map LightBackend.type bs) →
    b ∈ bs → LightBackend.type b = type →
    lit ∈ cache type state bs →
    LightBackend.handler lit = LightBackend.handler b →
    isLit (LightBackend.state lit) = true →
    ∃ shown,
      shown ∈ cache type state bs
      ∧ LightBackend.handler shown = LightBackend.handler b
      ∧ isLit (LightBackend.state shown) = true
      ∧ setLight call type state bs w
        = (SUCCESS, cache type state bs,
           (call (LightBackend.handler b) (LightBackend.state shown) w).2).
Proof.
  intros W call type state bs w b lit Hnd Hin Ht Hlit Hh Hl.
  destruct (winner (LightBackend.handler b) (cache type state bs))
    as [shown|] eqn:Hwin.
  - destruct (winner_elem _ _ _ Hwin) as (Hs & Hsh & Hsl).
    exists shown. repeat split; try assumption; [congruence|].
    apply setLight_first_lit; assumption.
  - exfalso. apply (winner_none _ _ Hwin lit Hlit). split; congruence.
Qed.

Lemma lit_backend_is_never_blanked_witness :
  ∃ shown,
    shown ∈ cache ATTENTION LightBackend.initial_state
                  (cache NOTIFICATIONS opaque_green backends)
    ∧ LightBackend.handler shown = HandleNotification
    ∧ isLit (LightBackend.state shown) = true
    ∧ setLight record ATTENTION LightBackend.initial_state
               (cache NOTIFICATIONS opaque_green backends) []
      = (SUCCESS,
         cache ATTENTION LightBackend.initial_state
               (cache NOTIFICATIONS opaque_green backends),
         (record HandleNotification (LightBackend.state shown) []).2).
Proof.
  apply (lit_backend_is_never_blanked _ record ATTENTION
           LightBackend.initial_state
           (cache NOTIFICATIONS opaque_green backends) []
           (LightBackend.make ATTENTION HandleNotification)
           (LightBackend.mk NOTIFICATIONS opaque_green HandleNotification)).
  - apply configured_NoDup. reflexivity.
  - simpl. rewrite !elem_of_cons. tauto.
  - reflexivity.
  - simpl. rewrite !elem_of_cons. tauto.
  - reflexivity.
  - reflexivity.
Defined.

(** X10. Repeating a [setLight] call changes nothing further in the
    backends and renders again what the first call rendered: the status and
    the backends of the second call are those of the first, and the store
    goes through the same step twice (no step for a type without backend,
    otherwise one handler call with one state). *)
Theorem setLight_twice :
  ∀ (W : Type) (call : LightStateHandler → LightState → ST W ())
    type state bs w,
    ∃ step : W → W,
      (step = (λ w, w)
       ∨ ∃ handler rendered, step = (λ w, (call handler rendered w).2))
      ∧ setLight call type state bs w
        = ((setLight call type state bs w).1, step w)
      ∧ setLight call type state (setLight call type state bs w).1.2
                 (setLight call type state bs w).2
        = ((setLight call type state bs w).1, step (step w)).
Proof.
  intros W call type state bs w.
  assert (Hlook : lookupHandler type None (cache type state bs)
                  = lookupHandler type None bs)
    by apply lookupHandler_layout, cache_layout.
  rewrite (setLight_spec call type state bs w).
  destruct (lookupHandler type None bs) as [h|] eqn:Hh; simpl.
  - rewrite setLight_spec, Hlook, cache_idempotent. simpl.
    eexists (λ w, (call h _ w).2). split; [right; eauto|].
    split; reflexivity.
  - rewrite setLight_spec, Hlook, cache_idempotent.
    exists (λ w, w). split; [left; reflexivity|].
    split; reflexivity.
Qed.

(** X11. Calls for two different types commute on the backends: the cached
    states after both calls do not depend on their order, whatever the
    stores; and the status of a call does not depend on the calls before
    it. *)
Theorem setLight_commute_cache :
  ∀ (W : Type) (call : LightStateHandler → LightState → ST W ())
    type1 state1 type2 state2 bs w w1 w2,
    type1 ≠ type2 →
    (setLight call type2 state2
              (setLight call type1 state1 bs w).1.2 w1).1.2
    = (setLight call type1 state1
                (setLight call type2 state2 bs w).1.2 w2).1.2
    ∧ (setLight call type2 state2
                (setLight call type1 state1 bs w).1.2 w1).1.1
      = (setLight call type2 state2 bs w).1.1.
Proof.
  intros W call type1 state1 type2 state2 bs w w1 w2 Hne. split.
  - rewrite !setLight_backends. apply cache_commute, Hne.
  - rewrite setLight_backends, !setLight_spec.
    rewrite (lookupHandler_layout type2 None (cache type1 state1 bs) bs
               (cache_layout type1 state1 bs)).
    destruct (lookupHandler type2 None bs); reflexivity.
Qed.

Lemma setLight_commute_cache_witness :
  (ATTENTION ≠ BATTERY)
  ∧ (setLight record BATTERY opaque_white
              (setLight record ATTENTION opaque_green backends []).1.2 []).1.2
    = (setLight record ATTENTION opaque_green
                (setLight record BATTERY opaque_white backends []).1.2 []).1.2.
Proof.
  assert (Hne : ATTENTION ≠ BATTERY) by discriminate.
  split; [exact Hne|].
  apply (proj1 (setLight_commute_cache _ record ATTENTION opaque_green
                  BATTERY opaque_white backends [] [] [] Hne)).
Defined.

(** ** Further properties of the brightness converter *)

(** X12. [isLit] looks at red, green and blue only, the luma also at alpha:
    a colour with alpha 0 and some non-zero channel is lit, so it takes part
    in the arbitration, yet its luma is 0 and it is scaled to brightness 0
    for every maximum. *)
Theorem transparent_lit_but_dark :
  ∀ state,
    0 < color state < 2 ^ 24 →
    isLit state = true
    ∧ getBrightness state = 0
    ∧ ∀ maxBrightness, getScaledBrightness state maxBrightness = 0.
Proof.
  intros state Hc.
  assert (Hluma : getBrightness state = 0).
  { rewrite getBrightness_reference. unfold luma_reference.
    rewrite (Z.div_small (color state) (2 ^ 24)) by lia.
    change (0 mod 256) with 0.
    destruct (decide (0 ≠ 255)) as [_|Habs]; [|exfalso; apply Habs; lia].
    rewrite !Z.mul_0_r. reflexivity. }
  split; [|split].
  - unfold isLit. apply bool_decide_eq_true.
    change 16777215 with (Z.ones 24). rewrite Z.land_ones by lia.
    rewrite Z.mod_small by lia. lia.
  - exact Hluma.
  - intros m. unfold getScaledBrightness. rewrite Hluma.
    unfold scaleBrightness. rewrite Z.mul_0_l. reflexivity.
Qed.

Lemma transparent_lit_but_dark_witness :
  (0 < color (mkLightState 16777215 NONE 0 0 USER) < 2 ^ 24)
  ∧ isLit (mkLightState 16777215 NONE 0 0 USER) = true
  ∧ getBrightness (mkLightState 16777215 NONE 0 0 USER) = 0.
Proof.
  assert (H : 0 < color (mkLightState 16777215 NONE 0 0 USER) < 2 ^ 24)
    by (simpl; lia).
  split; [exact H|].
  destruct (transparent_lit_but_dark _ H) as (H1 & H2 & _).
  split; assumption.
Defined.

(** X13. Among the 32-bit colours, the luma reaches 255 for opaque white
    only. *)
Theorem full_luma_only_opaque_white :
  ∀ state,
    0 <= color state < 2 ^ 32 →
    (getBrightness state = 255 ↔ color state = 4294967295).
Proof.
  intros state Hc. split.
  - rewrite getBrightness_reference. unfold luma_reference.
    set (c := color state) in *.
    pose proof (Z.mod_pos_bound (c / 2 ^ 24) 256 ltac:(lia)) as Ha.
    pose proof (Z.mod_pos_bound (c / 2 ^ 16) 256 ltac:(lia)) as Hr.
    pose proof (Z.mod_pos_bound (c / 2 ^ 8) 256 ltac:(lia)) as Hg.
    pose proof (Z.mod_pos_bound c 256 ltac:(lia)) as Hb.
    assert (Hbytes : c = (c / 2 ^ 24) mod 256 * 2 ^ 24
                         + (c / 2 ^ 16) mod 256 * 2 ^ 16
                         + (c / 2 ^ 8) mod 256 * 2 ^ 8 + c mod 256).
    { change (2 ^ 24) with 16777216. change (2 ^ 16) with 65536.
      change (2 ^ 8) with 256. change (2 ^ 32) with 4294967296 in Hc.
      clear Ha Hr Hg Hb. Z.to_euclidean_division_equations. lia. }
    set (alpha := (c / 2 ^ 24) mod 256) in *.
    set (red := (c / 2 ^ 16) mod 256) in *.
    set (green := (c / 2 ^ 8) mod 256) in *.
    set (blue := c mod 256) in *.
    destruct (decide (alpha ≠ 255)) as [Hne|Heq].
    + intros H. exfalso.
      assert (Hp : ∀ ch, 0 <= ch <= 255 → 0 <= ch * alpha / 255 <= 254).
      { intros ch Hch. split.
        - apply Z.div_pos; nia.
        - apply Z.div_le_upper_bound; nia. }
      pose proof (Hp red ltac:(lia)). pose proof (Hp green ltac:(lia)).
      pose proof (Hp blue ltac:(lia)).
      assert ((77 * (red * alpha / 255) + 150 * (green * alpha / 255)
               + 29 * (blue * alpha / 255)) / 2 ^ 8 <= 254);
        [apply Z.div_le_upper_bound; lia | lia].
    + intros H.
      assert (65280 <= 77 * red + 150 * green + 29 * blue).
      { pose proof (Z.div_mod (77 * red + 150 * green + 29 * blue) (2 ^ 8)
                      ltac:(lia)) as E.
        pose proof (Z.mod_pos_bound (77 * red + 150 * green + 29 * blue)
                      (2 ^ 8) ltac:(lia)).
        rewrite H in E. lia. }
      assert (alpha = 255) by lia. lia.
  - intros E. unfold getBrightness. rewrite E. reflexivity.
Qed.

Lemma full_luma_only_opaque_white_witness :
  (0 <= color opaque_white < 2 ^ 32)
  ∧ getBrightness opaque_white = 255.
Proof.
  assert (H : 0 <= color opaque_white < 2 ^ 32) by (simpl; lia).
  split; [exact H|].
  apply (proj2 (full_luma_only_opaque_white opaque_white H)). reflexivity.
Defined.

(** X14. For a maximum up to 16843009 the scaling is monotone in the luma
    and maps luma 0 to 0 and luma 255 to the maximum itself. *)
Theorem scaleBrightness_monotone :
  ∀ brightness1 brightness2 maxBrightness,
    0 <= brightness1 <= brightness2 → brightness2 <= 255 →
    0 <= maxBrightness <= 16843009 →
    scaleBrightness brightness1 maxBrightness
    <= scaleBrightness brightness2 maxBrightness
    ∧ scaleBrightness 0 maxBrightness = 0
    ∧ scaleBrightness 255 maxBrightness = maxBrightness.
Proof.
  intros b1 b2 m Hb1 Hb2 Hm.
  rewrite !scaleBrightness_no_wrap by nia. unfold scale_reference.
  split; [|split].
  - apply Z.div_le_mono; nia.
  - reflexivity.
  - rewrite Z.mul_comm. apply Z.div_mul. lia.
Qed.

Lemma scaleBrightness_monotone_witness :
  (0 <= 75 <= 149) ∧ (149 <= 255) ∧ (0 <= 4095 <= 16843009)
  ∧ scaleBrightness 75 4095 <= scaleBrightness 149 4095
  ∧ scaleBrightness 0 4095 = 0
  ∧ scaleBrightness 255 4095 = 4095.
Proof.
  split; [lia|]. split; [lia|]. split; [lia|].
  apply (scaleBrightness_monotone 75 149 4095); lia.
Defined.

(** ** Further properties of histories *)

(** X15. [getSupportedTypes] and [setLight] agree: a type is among the
    types reported exactly when a [setLight] call for it returns SUCCESS, for
    both definitions of [setLight]. *)
Theorem supported_iff_success :
  ∀ (W : Type) (call : LightStateHandler → LightState → ST W ())
    type state bs w,
    (type ∈ (getSupportedTypes bs w).1.1
     ↔ (setLight call type state bs w).1.1 = SUCCESS)
    ∧ (type ∈ (getSupportedTypes bs w).1.1
       ↔ (setLight_inline call type state bs w).1.1 = SUCCESS).
Proof.
  intros W call type state bs w. rewrite getSupportedTypes_spec. simpl.
  destruct (decide (type ∈ map LightBackend.type bs)) as [Hin|Hnot].
  - split; (split; [intros _|intros _; exact Hin]).
    + rewrite setLight_spec.
      destruct (lookupHandler_present type None bs Hin) as [h ->].
      reflexivity.
    + apply setLight_inline_status, Hin.
  - split; (split; [intros Hin; contradiction|intros H; exfalso]).
    + rewrite setLight_spec, (lookupHandler_absent type None bs Hnot) in H.
      discriminate H.
    + rewrite (setLight_inline_absent call type state bs w Hnot) in H.
      discriminate H.
Qed.

(** X16. Calls for types without a backend can be dropped from a history:
    the backends and the store at the end are the same without them. *)
Theorem unsupported_calls_skipped :
  ∀ (W : Type) (call : LightStateHandler → LightState → ST W ())
    calls bs w,
    runCalls (setLight call) calls bs w
    = runCalls (setLight call)
               (filter (λ c, c.1 ∈ map LightBackend.type bs) calls) bs w.
Proof.
  intros W call calls. induction calls as [|[type state] calls IH];
    intros bs w; [reflexivity|].
  rewrite filter_cons. simpl fst.
  destruct (decide (type ∈ map LightBackend.type bs)) as [Hin|Hnot].
  - rewrite !runCalls_cons, IH, setLight_types. reflexivity.
  - rewrite runCalls_cons, setLight_spec.
    rewrite (lookupHandler_absent type None bs Hnot).
    rewrite (cache_absent type state bs Hnot). apply IH.
Qed.

(** X17. After any history from the initial backends, a call for ATTENTION,
    NOTIFICATIONS or BATTERY makes exactly one more call of
    [handleNotification], with the state of the highest-priority type, in the
    order ATTENTION, NOTIFICATIONS, BATTERY, whose most recent state is lit;
    when none is lit, with the state just given. *)
Theorem led_shows_highest_priority :
  ∀ (W : Type) (call : LightStateHandler → LightState → ST W ())
    calls type state w,
    type ∈ [ATTENTION; NOTIFICATIONS; BATTERY] →
    (runCalls (setLight call) (calls ++ [(type, state)]) backends w).2
    = (call HandleNotification
            (shownAfter (calls ++ [(type, state)]) state)
            (runCalls (setLight call) calls backends w).2).2.
Proof.
  intros W call calls type state w. apply runCalls_group_snoc.
Qed.

Lemma led_shows_highest_priority_witness :
  (BATTERY ∈ [ATTENTION; NOTIFICATIONS; BATTERY])
  ∧ (runCalls (setLight record)
              ([(NOTIFICATIONS, opaque_green);
                (ATTENTION, LightBackend.initial_state)]
               ++ [(BATTERY, opaque_white)]) backends []).2
    = (record HandleNotification opaque_green
              (runCalls (setLight record)
                        [(NOTIFICATIONS, opaque_green);
                         (ATTENTION, LightBackend.initial_state)]
                        backends []).2).2.
Proof.
  assert (Hin : BATTERY ∈ [ATTENTION; NOTIFICATIONS; BATTERY]).
  { rewrite !elem_of_cons. tauto. }
  split; [exact Hin|].
  apply (led_shows_highest_priority _ record
           [(NOTIFICATIONS, opaque_green);
            (ATTENTION, LightBackend.initial_state)]
           BATTERY opaque_white [] Hin).
Defined.

(** ** From a history to the device *)

Section EndToEnd.

Lemma is_Some_after impl calls bs fs p :
  (∀ type state bs w,
     (impl type state bs w).2 = w
     ∨ ∃ h rendered, (impl type state bs w).2 = (invoke h rendered w).2) →
  is_Some (attrs fs !! p) →
  is_Some (attrs (runCalls impl calls bs fs).2 !! p).
Proof.
  intros Himpl Hp.
  destruct (runCalls_device_invariant impl calls bs fs HandleBacklight Himpl)
    as [_ Hdom].
  apply elem_of_dom. rewrite Hdom. apply elem_of_dom, Hp.
Qed.

End EndToEnd.

(** X18. The LED after a history. Let the LED's [max_brightness] be readable
    and non-negative and its brightness and breath attributes openable. After
    any history from the initial backends that ends with a call for ATTENTION,
    NOTIFICATIONS or BATTERY, if the state shown (highest-priority lit, else
    the state just given) is not TIMED, the brightness attribute holds its
    scaled luma and breath holds 0; if it is TIMED, breath holds 1. *)
Theorem led_attributes_after_history :
  ∀ calls type state fs maxBrightness,
    type ∈ [ATTENTION; NOTIFICATIONS; BATTERY] →
    attrs fs !! (WHITE_LED +:+ MAX_BRIGHTNESS) = Some maxBrightness →
    0 <= maxBrightness < 2 ^ 31 →
    is_Some (attrs fs !! (WHITE_LED +:+ BRIGHTNESS)) →
    is_Some (attrs fs !! (WHITE_LED +:+ BREATH)) →
    let shown := shownAfter (calls ++ [(type, state)]) state in
    let fs' := (runCalls (setLight invoke) (calls ++ [(type, state)])
                         backends fs).2 in
    (flashMode shown ≠ TIMED →
     attrs fs' !! (WHITE_LED +:+ BRIGHTNESS)
     = Some (getScaledBrightness shown maxBrightness)
     ∧ attrs fs' !! (WHITE_LED +:+ BREATH) = Some 0)
    ∧ (flashMode shown = TIMED →
       attrs fs' !! (WHITE_LED +:+ BREATH) = Some 1).
Proof.
  intros calls type state fs m Hin Hmax Hm Hbright Hbreath shown fs'.
  subst fs'. rewrite (runCalls_group_snoc invoke calls type state fs Hin).
  fold shown.
  pose proof (setLight_store invoke) as Hstore.
  destruct (runCalls_device_invariant (setLight invoke) calls backends fs
              HandleNotification Hstore) as [Hmax' _].
  simpl in Hmax'. rewrite Hmax in Hmax'.
  pose proof (is_Some_after (setLight invoke) calls backends fs _ Hstore
                Hbright) as [v Hv].
  pose proof (is_Some_after (setLight invoke) calls backends fs _ Hstore
                Hbreath) as [u Hu].
  set (fs1 := (runCalls (setLight invoke) calls backends fs).2) in *.
  simpl invoke. split.
  - intros Hmode.
    rewrite (handleNotification_steady_run shown fs1 m Hmax' Hmode).
    destruct (written_brightness_range shown m Hm) as [-> _]. split.
    + rewrite writeFile_lookup_eq, writeFile_lookup_ne, Hv; [reflexivity|].
      intros E. vm_compute in E. discriminate E.
    + rewrite writeFile_lookup_ne, writeFile_lookup_eq, Hu; [reflexivity|].
      intros E. vm_compute in E. discriminate E.
  - intros Hmode.
    rewrite (handleNotification_timed_run shown fs1 m Hmax' Hmode).
    rewrite writeFile_lookup_eq.
    rewrite !writeFile_lookup_ne
      by (intros E; vm_compute in E; discriminate E).
    rewrite writeFile_lookup_eq, Hu. reflexivity.
Qed.

Lemma led_attributes_after_history_witness :
  (NOTIFICATIONS ∈ [ATTENTION; NOTIFICATIONS; BATTERY])
  ∧ (attrs sample_device !! (WHITE_LED +:+ MAX_BRIGHTNESS) = Some 255)
  ∧ (0 <= 255 < 2 ^ 31)
  ∧ (attrs (runCalls (setLight invoke)
                     ([(ATTENTION, opaque_green)]
                      ++ [(NOTIFICATIONS, opaque_white)])
                     backends sample_device).2
       !! (WHITE_LED +:+ BRIGHTNESS)
     = Some (getScaledBrightness opaque_green 255)).
Proof.
  assert (Hin : NOTIFICATIONS ∈ [ATTENTION; NOTIFICATIONS; BATTERY]).
  { rewrite !elem_of_cons. tauto. }
  assert (Hmode : flashMode opaque_green ≠ TIMED) by discriminate.
  split; [exact Hin|]. split; [reflexivity|]. split; [lia|].
  apply (proj1 (led_attributes_after_history
                  [(ATTENTION, opaque_green)] NOTIFICATIONS opaque_white
                  sample_device 255 Hin eq_refl ltac:(lia)
                  (ex_intro _ 0 eq_refl) (ex_intro _ 0 eq_refl)) Hmode).
Defined.

(** X19. The backlight after a history. With the backlight's
    [max_brightness] readable and non-negative and its brightness attribute
    openable, after any history from the initial backends that ends with a
    BACKLIGHT call the brightness attribute holds the scaled luma of the
    state given in that call, whatever the LED types were set to. *)
Theorem backlight_attribute_after_history :
  ∀ calls state fs maxBrightness,
    attrs fs !! (LCD_LED +:+ MAX_BRIGHTNESS) = Some maxBrightness →
    0 <= maxBrightness < 2 ^ 31 →
    is_Some (attrs fs !! (LCD_LED +:+ BRIGHTNESS)) →
    attrs (runCalls (setLight invoke) (calls ++ [(BACKLIGHT, state)])
                    backends fs).2 !! (LCD_LED +:+ BRIGHTNESS)
    = Some (getScaledBrightness state maxBrightness).
Proof.
  intros calls state fs m Hmax Hm Hbright.
  rewrite (runCalls_backlight_snoc invoke calls state fs).
  pose proof (setLight_store invoke) as Hstore.
  destruct (runCalls_device_invariant (setLight invoke) calls backends fs
              HandleBacklight Hstore) as [Hmax' _].
  simpl in Hmax'. rewrite Hmax in Hmax'.
  pose proof (is_Some_after (setLight invoke) calls backends fs _ Hstore
                Hbright) as [v Hv].
  simpl invoke. rewrite (handleBacklight_run state _ m Hmax').
  destruct (written_brightness_range state m Hm) as [-> _].
  rewrite writeFile_lookup_eq, Hv. reflexivity.
Qed.

Lemma backlight_attribute_after_history_witness :
  (attrs sample_device !! (LCD_LED +:+ MAX_BRIGHTNESS) = Some 255)
  ∧ (0 <= 255 < 2 ^ 31)
  ∧ (attrs (runCalls (setLight invoke)
                     ([(ATTENTION, opaque_white)]
                      ++ [(BACKLIGHT, half_green)])
                     backends sample_device).2 !! (LCD_LED +:+ BRIGHTNESS)
     = Some (getScaledBrightness half_green 255)).
Proof.
  split; [reflexivity|]. split; [lia|].
  apply (backlight_attribute_after_history
           [(ATTENTION, opaque_white)] half_green sample_device 255
           eq_refl ltac:(lia) (ex_intro _ 0 eq_refl)).
Defined.

(** X20. Over any history, [setLight] makes one handler call for each call
    whose type has a backend and none for the others: the log of handler
    invocations grows by the number of supported calls. *)
Theorem one_invocation_per_supported_call :
  ∀ calls bs log,
    length (runCalls (setLight record) calls bs log).2
    = (length log
       + length (filter (λ c, c.1 ∈ map LightBackend.type bs) calls))%nat.
Proof.
  intros calls. induction calls as [|[type state] calls IH]; intros bs log.
  - simpl. lia.
  - rewrite runCalls_cons, IH, setLight_types, filter_cons. simpl fst.
    rewrite setLight_spec.
    destruct (decide (type ∈ map LightBackend.type bs)) as [Hin|Hnot].
    + destruct (lookupHandler_present type None bs Hin) as [h ->].
      simpl. rewrite length_app. simpl. lia.
    + rewrite (lookupHandler_absent type None bs Hnot). simpl. lia.
Qed.
